(** * The C3 compiler backend of Meson (mesonbuild/compilers/c3.py)

    A shallow embedding of [C3Compiler] and of the table
    [c3_optimization_args], together with the parts of Python's
    [posixpath] and [subprocess] modules the backend calls.

    Python [str] values are modelled as [string]; a Python [dict] as a
    [gmap]; a Python [list] that is mutated in place as an entry of an
    object store indexed by object identity. [os.path] is taken to be
    [posixpath], the separator being '/'. A text whose characters
    [str.strip()] inspects is a sequence of Unicode code points. *)

From Stdlib Require Import Ascii String ZArith Lia.
From stdpp Require Import base option list strings gmap fin_maps.

Local Open Scope Z_scope.
Local Open Scope nat_scope.

(** ** Python values shared by the whole development *)

(** The exceptions this module raises, directly or through a failed
    dictionary subscript. *)
Inductive exception : Type :=
  | KeyError (key : string)
  | EnvironmentException (msg : string).

(** Outcome of a call: a returned value or a raised exception. *)
Inductive result (A : Type) : Type :=
  | Ok (a : A)
  | Raise (e : exception).
Arguments Ok {A} a.
Arguments Raise {A} e.

(** ** String primitives of Python used by the backend *)

Module PyStr.

Definition sep : ascii := "/"%char.

(** [s[:n]]: the first [n] characters, or all of [s] when it is shorter. *)
Fixpoint slice_to (n : nat) (s : string) : string :=
  match n, s with
  | S n', String c s' => String c (slice_to n' s')
  | _, _ => ""
  end.

(** [s[n:]]: what remains after the first [n] characters. *)
Fixpoint slice_from (n : nat) (s : string) : string :=
  match n, s with
  | S n', String _ s' => slice_from n' s'
  | _, _ => s
  end.

(** [s.startswith(p)]. *)
Definition startswith (p s : string) : bool := String.prefix p s.

(** [s.endswith('/')]. *)
Fixpoint endswith_sep (s : string) : bool :=
  match s with
  | "" => false
  | String c "" => Ascii.eqb c sep
  | String _ s' => endswith_sep s'
  end.

(** [s.split('/')]: never empty; the empty string splits to [['']]. *)
Fixpoint split_sep (s : string) : list string :=
  match s with
  | "" => [""]
  | String c s' =>
      if Ascii.eqb c sep then "" :: split_sep s'
      else match split_sep s' with
           | w :: ws => String c w :: ws
           | [] => [String c ""]
           end
  end.

(** ['/'.join(comps)]. *)
Definition join_sep (comps : list string) : string := String.concat "/" comps.

(** The character [sep] does not occur in [s]. *)
Fixpoint sep_free (s : string) : bool :=
  match s with
  | "" => true
  | String c s' => negb (Ascii.eqb c sep) && sep_free s'
  end.

End PyStr.

(** ** [posixpath.join] and [posixpath.normpath] (what [os.path] is on POSIX) *)

Module posixpath.
Import PyStr.

(** One round of the loop of [join(a, *p)]: [path] is the path built so
    far, [b] the next component:
    [if b.startswith(sep) or not path: path = b]
    [elif path.endswith(sep): path += b]
    [else: path += sep + b]. *)
Definition join_step (path b : string) : string :=
  if startswith "/" b || String.eqb path "" then b
  else if endswith_sep path then path +:+ b
  else path +:+ "/" +:+ b.

Definition join (a : string) (p : list string) : string :=
  foldl join_step a p.

(** [initial_slashes] of [normpath]: 0, 1, or 2 (exactly two leading
    slashes are kept, three or more count as one). *)
Definition initial_slashes (path : string) : nat :=
  if startswith "/" path then
    if startswith "//" path && negb (startswith "///" path) then 2 else 1
  else 0.

(** [new_comps[-1] == '..'] guarded by [new_comps] being non-empty. *)
Definition last_is_dotdot (new_comps : list string) : bool :=
  match last new_comps with
  | Some c => String.eqb c ".."
  | None => false
  end.

Definition is_nil (new_comps : list string) : bool :=
  match new_comps with [] => true | _ => false end.

(** Body of [for comp in comps] in [normpath]:
    [if comp in ('', '.'): continue]
    [if (comp != '..' or (not initial_slashes and not new_comps) or
         (new_comps and new_comps[-1] == '..')): new_comps.append(comp)]
    [elif new_comps: new_comps.pop()].
    [append] is [++ [comp]], [pop] is [removelast]. *)
Definition normpath_step (slashes : nat) (new_comps : list string)
    (comp : string) : list string :=
  if String.eqb comp "" || String.eqb comp "." then new_comps
  else if negb (String.eqb comp "..")
          || (Nat.eqb slashes 0 && is_nil new_comps)
          || (negb (is_nil new_comps) && last_is_dotdot new_comps)
  then new_comps ++ [comp]
  else if negb (is_nil new_comps) then removelast new_comps
  else new_comps.

(** ['/' * n]. *)
Fixpoint seps (n : nat) : string :=
  match n with
  | 0 => ""
  | S n' => String sep (seps n')
  end.

(** [normpath(path)]: the empty path is '.'; otherwise the components
    between separators are run through the loop above, joined again and
    put behind the leading separators; [return path or dot]. *)
Definition normpath (path : string) : string :=
  if String.eqb path "" then "."
  else
    let slashes := initial_slashes path in
    let comps := split_sep path in
    let new_comps := foldl (normpath_step slashes) [] comps in
    let path := join_sep new_comps in
    let path := if Nat.eqb slashes 0 then path else seps slashes +:+ path in
    if String.eqb path "" then "." else path.

End posixpath.

(** ** The flag table *)

(** [c3_optimization_args], a module-level [dict] (c3.py, lines 23-34). *)
Definition c3_optimization_items : list (string * list string) :=
  [ ("plain", []);
    ("0", ["-O0"]);
    ("g", ["-Og"]);
    ("1", ["-O1"]);
    ("2", ["-O2"]);
    ("3", ["-O3"]);
    ("s", ["-Os"]);
    ("4", ["-O4"]);
    ("5", ["-O5"]);
    ("z", ["-Oz"]) ].

Definition c3_optimization_args : gmap string (list string) :=
  list_to_map c3_optimization_items.

(** [d[k]] on a [dict]: the value, or [KeyError(k)]. *)
Definition dict_subscript {V : Type} (d : gmap string V) (k : string) : result V :=
  match d !! k with
  | Some v => Ok v
  | None => Raise (KeyError k)
  end.

(** The closed set of optimization levels of the build system. *)
Definition optimization_levels : list string :=
  ["plain"; "0"; "g"; "1"; "2"; "3"; "s"; "4"; "5"; "z"].

(** ** The object store

    [compute_parameters_with_absolute_paths] assigns to the elements of
    the list it is handed, so lists live in a store and are passed by
    identity. *)

Definition loc : Type := nat.
Abbreviation store := (gmap nat (list string)).

(** [len(r)]; zero for an identity that names no list. *)
Definition list_len (r : loc) (σ : store) : nat :=
  match σ !! r with
  | Some l => length l
  | None => 0
  end.

(** [r[idx]] for an index in range. *)
Definition getitem (r : loc) (idx : nat) (σ : store) : option string :=
  σ !! r ≫= fun l => l !! idx.

(** [r[idx] = v] for an index in range: the object [r] itself changes. *)
Definition setitem (r : loc) (idx : nat) (v : string) (σ : store) : store :=
  alter (fun l => <[idx := v]> l) r σ.

(** ** Child processes ([subprocess]) and the file system

    [sanity_check] is a straight-line program over three kinds of calls to
    the operating system; it is embedded as a tree of those calls, and the
    operating system as the [world] that answers them. *)

(** Where a child's stdout and stderr go: the [stdout=]/[stderr=]
    arguments of [subprocess.Popen]. [Inherit] is the default [None]. *)
Inductive stdio : Type := Inherit | Pipe | DevNull.

Inductive prog (A : Type) : Type :=
  | Ret (a : A)
  | Throw (e : exception)
  | WriteFile (path content : string) (k : prog A)
  | PopenWait (argv : list string) (cwd : string) (out : stdio) (k : Z → prog A)
  | Call (program : string) (out : stdio) (k : Z → prog A).
Arguments Ret {A} a.
Arguments Throw {A} e.
Arguments WriteFile {A} path content k.
Arguments PopenWait {A} argv cwd out k.
Arguments Call {A} program out k.

Fixpoint bind {A B : Type} (f : A → prog B) (m : prog A) : prog B :=
  match m with
  | Ret a => f a
  | Throw e => Throw e
  | WriteFile p c k => WriteFile p c (bind f k)
  | PopenWait argv cwd out k => PopenWait argv cwd out (fun rc => bind f (k rc))
  | Call p out k => Call p out (fun rc => bind f (k rc))
  end.

#[global] Instance prog_ret : MRet prog := fun A a => Ret a.
#[global] Instance prog_bind : MBind prog := fun A B f m => bind f m.

(** [with open(path, 'w') as f: f.write(content)]. *)
Definition write_file (path content : string) : prog unit :=
  WriteFile path content (Ret tt).

(** [pc = subprocess.Popen(argv, cwd=cwd); pc.wait(); pc.returncode]:
    no [stdout=]/[stderr=] is given, so the child inherits both. *)
Definition popen_wait (argv : list string) (cwd : string) : prog Z :=
  PopenWait argv cwd Inherit Ret.

(** [subprocess.call(program)]: likewise without redirection. *)
Definition subprocess_call (program : string) : prog Z :=
  Call program Inherit Ret.

(** What a finished child leaves behind. *)
Record child : Type := Child {
  returncode : Z;
  output : string   (* what it wrote to its stdout and stderr *)
}.

(** The operating system as seen by [sanity_check]. *)
Record world : Type := World {
  spawn : list string → string → child;   (* argv, cwd *)
  execute : string → child                (* program *)
}.

(** What the program did, in order. *)
Inductive event : Type :=
  | Wrote (path content : string)
  | Spawned (argv : list string) (cwd : string)
  | Executed (program : string).

Record run : Type := Run {
  trace : list event;        (* calls made, oldest first *)
  console : string;          (* what reached the parent's own stdout/stderr *)
  captured : string;         (* what was collected through pipes *)
  outcome : result unit
}.

(** A child's output reaches the console when inherited, a pipe when
    piped, and nothing when sent to the null device. *)
Definition to_console (out : stdio) (c : child) : string :=
  match out with Inherit => output c | _ => "" end.
Definition to_pipe (out : stdio) (c : child) : string :=
  match out with Pipe => output c | _ => "" end.

Definition emit (e : event) (con cap : string) (r : run) : run :=
  Run (e :: trace r) (con +:+ console r) (cap +:+ captured r) (outcome r).

Fixpoint exec (w : world) (p : prog unit) : run :=
  match p with
  | Ret a => Run [] "" "" (Ok a)
  | Throw e => Run [] "" "" (Raise e)
  | WriteFile path content k => emit (Wrote path content) "" "" (exec w k)
  | PopenWait argv cwd out k =>
      let c := spawn w argv cwd in
      emit (Spawned argv cwd) (to_console out c) (to_pipe out c)
           (exec w (k (returncode c)))
  | Call program out k =>
      let c := execute w program in
      emit (Executed program) (to_console out c) (to_pipe out c)
           (exec w (k (returncode c)))
  end.

Definition is_execution (e : event) : bool :=
  match e with Executed _ => true | _ => false end.

(** Number of times a produced binary was run. *)
Definition execute_calls (r : run) : nat :=
  length (filter (fun e => is_execution e = true) (trace r)).

(** [sub in s]. *)
Fixpoint contains (sub s : string) : bool :=
  PyStr.startswith sub s ||
  match s with
  | "" => false
  | String _ s' => contains sub s'
  end.

(** ** Runs in which the operating system may refuse a call

    [open], [subprocess.Popen] and [subprocess.call] raise an [OSError]
    (a [FileNotFoundError] for a missing work directory or program, a
    [PermissionError], ...) when the call itself cannot be carried out.
    [sanity_check] has no [try], so such an error ends the run at once and
    reaches the caller as it is. [exec] above is the case in which every
    call is carried out. *)

(** An [OSError], named by its class and text. *)
Inductive oserror : Type := OSError (what : string).

(** How a run ends. *)
Inductive ending : Type :=
  | Returns                (* the method returned [None] *)
  | Raises (e : exception) (* a [raise] statement of the method *)
  | Escapes (e : oserror). (* an error of a call, caught nowhere *)

Record os_world : Type := OSWorld {
  os_write : string → string → option oserror;      (* path, content *)
  os_spawn : list string → string → oserror + child; (* argv, cwd *)
  os_execute : string → oserror + child              (* program *)
}.

Record os_run : Type := OSRun {
  os_trace : list event;   (* calls carried out, oldest first *)
  os_console : string;
  os_captured : string;
  os_ending : ending
}.

Definition os_emit (e : event) (con cap : string) (r : os_run) : os_run :=
  OSRun (e :: os_trace r) (con +:+ os_console r) (cap +:+ os_captured r)
        (os_ending r).

Definition os_stop (e : oserror) : os_run := OSRun [] "" "" (Escapes e).

Fixpoint exec_os (w : os_world) (p : prog unit) : os_run :=
  match p with
  | Ret _ => OSRun [] "" "" Returns
  | Throw e => OSRun [] "" "" (Raises e)
  | WriteFile path content k =>
      match os_write w path content with
      | Some e => os_stop e
      | None => os_emit (Wrote path content) "" "" (exec_os w k)
      end
  | PopenWait argv cwd out k =>
      match os_spawn w argv cwd with
      | inl e => os_stop e
      | inr c =>
          os_emit (Spawned argv cwd) (to_console out c) (to_pipe out c)
                  (exec_os w (k (returncode c)))
      end
  | Call program out k =>
      match os_execute w program with
      | inl e => os_stop e
      | inr c =>
          os_emit (Executed program) (to_console out c) (to_pipe out c)
                  (exec_os w (k (returncode c)))
      end
  end.

(** A world that carries out every call, seen as an [os_world]. *)
Definition answered (w : world) : os_world :=
  OSWorld (fun _ _ => None)
          (fun argv cwd => inr (spawn w argv cwd))
          (fun program => inr (execute w program)).

Definition ending_of (r : result unit) : ending :=
  match r with
  | Ok _ => Returns
  | Raise e => Raises e
  end.

(** ** The backend *)

(** The attributes of [self] the methods below read. [name_string] is the
    display name computed by the base class [Compiler], which is not part
    of this file; it is taken as given. *)
Record compiler : Type := Compiler {
  exelist : list string;
  is_cross : bool;
  name_string : string
}.

(** What [sanity_check] asks of its [environment] argument:
    [environment.coredata.get_external_args(for_machine, language)] and
    [environment.coredata.get_external_link_args(for_machine, language)]. *)
Record Environment : Type := Env {
  get_external_args : list string;
  get_external_link_args : list string
}.

Module C3Compiler.
Import PyStr.

Definition get_pic_args : list string := [].
Definition get_pie_args : list string := [].
Definition needs_static_linker : bool := true.
Definition get_werror_args : list string := [].

(** Lines 79-81; the computation of a path is commented out in the source. *)
Definition depfile_for_object (objfile : string) : option string := None.

Definition get_depfile_suffix : string := "d".

Definition get_output_args (target : string) : list string := ["-o"; target].

Definition get_include_args (path : string) (is_system : bool) : list string :=
  ["--libdir"; path].

Definition get_compile_only_args : list string := ["compile-only"].

(** [i[:2] == '-I' or i[:2] == '-L'] (line 104). *)
Definition is_path_flag (i : string) : bool :=
  String.eqb (slice_to 2 i) "-I" || String.eqb (slice_to 2 i) "-L".

(** Right-hand side of the assignment in the loop (line 105). *)
Definition absolute_flag (build_dir i : string) : string :=
  slice_to 2 i +:+ posixpath.normpath (posixpath.join build_dir [slice_from 2 i]).

(** Body of [for idx, i in enumerate(parameter_list)]: reads the element
    the list holds at [idx] now and may overwrite it. *)
Definition loop_body (build_dir : string) (parameter_list : loc)
    (σ : store) (idx : nat) : store :=
  match getitem parameter_list idx σ with
  | Some i =>
      if is_path_flag i
      then setitem parameter_list idx (absolute_flag build_dir i) σ
      else σ
  | None => σ
  end.

(** Lines 101-107. The loop never changes the length of the list, so
    [enumerate] visits the indices [0 .. len-1]. The method returns the
    object it received. *)
Definition compute_parameters_with_absolute_paths (parameter_list : loc)
    (build_dir : string) (σ : store) : loc * store :=
  (parameter_list,
   foldl (loop_body build_dir parameter_list) σ
         (seq 0 (list_len parameter_list σ))).

(** The probe program, one line ended by a newline (lines 120-121). *)
Definition probe_source : string :=
  "fn int main(){return 0;}" +:+ String "010"%char "".

(** Lines 109-130. The calls to the operating system are the nodes of
    the tree; [exec] runs it where every call is carried out, [exec_os]
    where a call may be refused. *)
Definition sanity_check (self : compiler) (work_dir : string)
    (environment : Environment) : prog unit :=
  let src := "c3ctest.c3" in
  let source_name := posixpath.join work_dir [src] in
  let output_name := posixpath.join work_dir ["c3test"; "c3test"] in
  let extra_flags : list string := [] in
  let extra_flags := extra_flags ++ get_external_args environment in
  let extra_flags :=
    if is_cross self then extra_flags ++ get_compile_only_args
    else extra_flags ++ get_external_link_args environment in
  write_file source_name probe_source ;;
  rc ← popen_wait (exelist self ++ extra_flags ++ ["compile"; src; "-o"; output_name])
                   work_dir ;
  if negb (Z.eqb rc 0) then
    Throw (EnvironmentException
             ("C3 compiler " +:+ name_string self +:+ " cannot compile programs."))
  else if is_cross self then
    (* Can't check if the binaries run so we have to assume they do *)
    Ret tt
  else
    rc' ← subprocess_call output_name ;
    if negb (Z.eqb rc' 0) then
      Throw (EnvironmentException
               ("Executables created by C3 compiler " +:+ name_string self
                +:+ " are not runnable."))
    else Ret tt.

(** Lines 135-136. *)
Definition get_optimization_args (optimization_level : string)
    : result (list string) :=
  dict_subscript c3_optimization_args optimization_level.

End C3Compiler.

(** The flag list after the call, element by element: what the in-place
    loop amounts to. *)
Definition rewritten (build_dir : string) (l : list string) : list string :=
  (fun i => if C3Compiler.is_path_flag i
            then C3Compiler.absolute_flag build_dir i else i) <$> l.

(** ** Vocabulary of the statements about [sanity_check] *)

(** The command line of the compile step. *)
Definition probe_argv (self : compiler) (work_dir : string)
    (environment : Environment) : list string :=
  exelist self
  ++ (get_external_args environment
      ++ (if is_cross self then C3Compiler.get_compile_only_args
          else get_external_link_args environment))
  ++ ["compile"; "c3ctest.c3"; "-o"; posixpath.join work_dir ["c3test"; "c3test"]].

(** The child the world answers the compile step with. *)
Definition probe_child (w : world) (self : compiler) (work_dir : string)
    (environment : Environment) : child :=
  spawn w (probe_argv self work_dir environment) work_dir.

(** The child the world answers the run step with. *)
Definition binary_child (w : world) (work_dir : string) : child :=
  execute w (posixpath.join work_dir ["c3test"; "c3test"]).

(** The two failures [sanity_check] reports. *)
Definition cannot_compile (self : compiler) : string :=
  "C3 compiler " +:+ name_string self +:+ " cannot compile programs.".
Definition not_runnable (self : compiler) : string :=
  "Executables created by C3 compiler " +:+ name_string self +:+ " are not runnable.".

(** A native toolchain whose compile step prints a diagnostic and fails. *)
Definition broken_c3c : compiler := Compiler ["c3c"] false "c3c".
Definition no_external_flags : Environment := Env [] [].
Definition failing_world : world :=
  World (fun _ _ => Child 1 "error: boom") (fun _ => Child 0 "").
Definition broken_run : run :=
  exec failing_world (C3Compiler.sanity_check broken_c3c "/w" no_external_flags).

(** A cross toolchain, and a world in which every compile succeeds and
    every produced binary, were it run, would fail. *)
Definition cross_c3c : compiler := Compiler ["c3c"; "--target"; "linux-x64"] true "c3c".
Definition some_external_flags : Environment := Env ["-g"] ["-lm"].
Definition trusting_world : world :=
  World (fun _ _ => Child 0 "") (fun _ => Child 1 "cannot execute binary file").

(** ** Vocabulary of the statements about [normpath] *)

(** A component the loop of [normpath] may keep: it came out of
    [split('/')] and is neither empty nor a single dot. *)
Definition proper (c : string) : Prop :=
  c ≠ "" ∧ c ≠ "." ∧ PyStr.sep_free c = true.

(** The shape of [new_comps] throughout the loop: kept components only,
    and a '..' only in a run of them at the front of a relative path. *)
Definition normal (slashes : nat) (comps : list string) : Prop :=
  Forall proper comps
  ∧ ∀ pre post, comps = pre ++ ".." :: post →
                slashes = 0 ∧ Forall (fun c => c = "..") pre.

(** The last three statements of [normpath]: the path text of the kept
    components behind [slashes] leading separators. *)
Definition assemble (slashes : nat) (new_comps : list string) : string :=
  let path := PyStr.join_sep new_comps in
  let path := if Nat.eqb slashes 0 then path else posixpath.seps slashes +:+ path in
  if String.eqb path "" then "." else path.

(** The caller's store of the examples: one list, object 0. *)
Definition caller_store : store := {[ 0 := ["-Ilib"; "-Wall"] ]}.

(** A caller that passes a relative build directory. *)
Definition relative_store : store := {[ 0 := ["-Ilib"] ]}.

(** The include flags of a directory whose name begins with '-I', held by
    a caller as object 0. *)
Definition dashed_include_store : store :=
  {[ 0 := C3Compiler.get_include_args "-Ifoo" false ]}.

(** ** The constructor (c3.py, lines 42-59)

    On macOS [__init__] asks [xcrun] for the SDK path. The call is
    [subprocess.check_output(['xcrun', '--show-sdk-path'],
    universal_newlines=True, encoding='utf-8', stderr=subprocess.STDOUT)]:
    the child's stderr is merged into the text that is collected, and the
    text is decoded before it is returned. *)

(** A decoded text as [str.strip()] sees it: a sequence of Unicode code
    points. *)
Abbreviation text := (list N).

(** The code points of a literal made of ASCII characters. *)
Definition codepoints (s : string) : text :=
  N_of_ascii <$> list_ascii_of_string s.

(** [c.isspace()] on one code point, the characters [str.strip()] without
    argument removes: U+0009 to U+000D, U+001C to U+0020, U+0085, U+00A0,
    U+1680, U+2000 to U+200A, U+2028, U+2029, U+202F, U+205F, U+3000. *)
Definition is_space (c : N) : bool :=
  ((9 <=? c) && (c <=? 13) || (28 <=? c) && (c <=? 32)
   || (c =? 133) || (c =? 160) || (c =? 5760)
   || (8192 <=? c) && (c <=? 8202)
   || (c =? 8232) || (c =? 8233) || (c =? 8239) || (c =? 8287)
   || (c =? 12288))%N.

(** [s.lstrip()]. *)
Fixpoint lstrip (s : text) : text :=
  match s with
  | [] => []
  | c :: s' => if is_space c then lstrip s' else s
  end.

(** [s.rstrip()]. *)
Fixpoint rstrip (s : text) : text :=
  match s with
  | [] => []
  | c :: s' =>
      match rstrip s' with
      | [] => if is_space c then [] else [c]
      | t => c :: t
      end
  end.

(** [s.strip()]. *)
Definition strip (s : text) : text := rstrip (lstrip s).

(** How [subprocess.check_output] ends: with the decoded text when the
    child exits with status zero; with [CalledProcessError] (carrying the
    status and the collected text, [e.output], which the constructor only
    appends to a message) when it exits otherwise; with
    [FileNotFoundError] when there is no such program; with any other
    exception ([PermissionError], [UnicodeDecodeError], ...), named by its
    class. *)
Inductive check_output_result : Type :=
  | Output (out : text)
  | CalledProcessError (status : Z) (out : string)
  | FileNotFoundError
  | OtherException (class : string).

(** How a failed construction ends: with the [MesonException(msg)] that
    [__init__] raises itself, or with an exception of [check_output] that
    no [except] clause of [__init__] catches. *)
Inductive init_exception : Type :=
  | MesonException (msg : string)
  | Propagated (class : string).

(** The instance after [__init__]: what the base class stored (taken as
    given), [self.version], and [self.sdk_path], an attribute that exists
    only when the constructor assigned it. *)
Record instance : Type := C3Instance {
  base : compiler;
  version : string;
  sdk_path : option text
}.

(** Everything a construction leaves behind. *)
Record construction : Type := Construction {
  calls : list (list string);      (* argv of each [check_output], in order *)
  errors_logged : list string;     (* arguments of [mlog.error], in order *)
  constructed : instance + init_exception
}.

Definition xcrun_argv : list string := ["xcrun"; "--show-sdk-path"].

Definition init (super : compiler) (version : string) (is_darwin : bool)
    (check_output : list string → check_output_result) : construction :=
  if is_darwin then
    match check_output xcrun_argv with
    | Output out =>
        Construction [xcrun_argv] []
          (inl (C3Instance super version (Some (strip out))))
    | CalledProcessError _ out =>
        Construction [xcrun_argv] ["Failed to get Xcode SDK path: " +:+ out]
          (inr (MesonException
                  "Xcode license not accepted yet. Run `sudo xcodebuild -license`."))
    | FileNotFoundError =>
        Construction [xcrun_argv]
          ["xcrun not found. Install Xcode to compile Swift code."]
          (inr (MesonException
                  "Could not detect Xcode. Please install it to compile Swift code."))
    | OtherException class =>
        Construction [xcrun_argv] [] (inr (Propagated class))
    end
  else Construction [] [] (inl (C3Instance super version None)).

(** ** Vocabulary of the statements about [strip] and the rewriter *)

Definition all_space (s : text) : bool := forallb is_space s.

(** The first character is white space. *)
Definition starts_space (s : text) : bool :=
  match s with
  | [] => false
  | c :: _ => is_space c
  end.

(** The last character is white space. *)
Definition ends_space (s : text) : bool :=
  match last s with
  | Some c => is_space c
  | None => false
  end.

(** No element of the list begins with '-I' or '-L'. *)
Definition no_path_flags (l : list string) : Prop :=
  Forall (fun i => C3Compiler.is_path_flag i = false) l.

(** A machine on which [xcrun] prints the SDK path and a newline. *)
Definition xcode_sdk : text :=
  codepoints
    "/Applications/Xcode.app/Contents/Developer/Platforms/MacOSX.platform/Developer/SDKs/MacOSX.sdk".
Definition xcrun_prints_sdk (argv : list string) : check_output_result :=
  Output (xcode_sdk ++ [10%N]).

(** A machine on which [xcrun] prints a path in a directory named with an
    accented letter (U+00E0), an EM SPACE (U+2003) and a newline. *)
Definition accented_sdk : text := codepoints "/sdk/" ++ [224%N].
Definition xcrun_prints_accented (argv : list string) : check_output_result :=
  Output (accented_sdk ++ [8195%N; 10%N]).

(** A machine on which [xcrun] may not be executed. *)
Definition xcrun_forbidden (argv : list string) : check_output_result :=
  OtherException "PermissionError".
Definition xcrun_unlicensed (argv : list string) : check_output_result :=
  CalledProcessError 69 "You have not agreed to the Xcode license agreements.".
Definition xcrun_missing (argv : list string) : check_output_result :=
  FileNotFoundError.

(** A native toolchain and worlds in which the probe compiles. *)
Definition native_c3c : compiler := Compiler ["c3c"] false "c3c".
Definition healthy_world : world :=
  World (fun _ _ => Child 0 "") (fun _ => Child 0 "").
Definition unrunnable_world : world :=
  World (fun _ _ => Child 0 "") (fun _ => Child 126 "Exec format error").

(** The run of the check on a machine that may refuse calls, and the two
    paths the check builds. *)
Definition probe_run (w : os_world) (self : compiler) (work_dir : string)
    (environment : Environment) : os_run :=
  exec_os w (C3Compiler.sanity_check self work_dir environment).
Definition source_path (work_dir : string) : string :=
  posixpath.join work_dir ["c3ctest.c3"].
Definition output_path (work_dir : string) : string :=
  posixpath.join work_dir ["c3test"; "c3test"].

(** The three calls of a complete run of [sanity_check], in order. *)
Definition probe_calls (self : compiler) (work_dir : string)
    (environment : Environment) : list event :=
  [Wrote (posixpath.join work_dir ["c3ctest.c3"]) C3Compiler.probe_source;
   Spawned (probe_argv self work_dir environment) work_dir;
   Executed (posixpath.join work_dir ["c3test"; "c3test"])].

(** A machine without the work directory, and one without the compiler. *)
Definition no_work_dir : os_world :=
  OSWorld (fun _ _ => Some (OSError "FileNotFoundError: No such file or directory"))
          (fun _ _ => inr (Child 0 ""))
          (fun _ => inr (Child 0 "")).
Definition no_compiler : os_world :=
  OSWorld (fun _ _ => None)
          (fun _ _ => inl (OSError "FileNotFoundError: No such file or directory: 'c3c'"))
          (fun _ => inr (Child 0 "")).

(** * Properties *)

(** ** Strings *)

Lemma append_cons c s t : String c s +:+ t = String c (s +:+ t).
Proof. reflexivity. Qed.

Lemma append_empty_l s : "" +:+ s = s.
Proof. reflexivity. Qed.

Lemma append_empty_r s : s +:+ "" = s.
Proof. induction s as [|c s IH]; [done|]. by rewrite append_cons, IH. Qed.

Lemma append_assoc s t u : (s +:+ t) +:+ u = s +:+ t +:+ u.
Proof. induction s as [|c s IH]; [done|]. by rewrite !append_cons, IH. Qed.

(** ** Worked examples of the path functions *)

Example normpath_ex1 : posixpath.normpath "/build/../a//b/./c/" = "/a/b/c".
Proof. reflexivity. Qed.
Example normpath_ex2 : posixpath.normpath "../a/../../b" = "../../b".
Proof. reflexivity. Qed.
Example normpath_ex3 : posixpath.normpath "//a/.." = "//".
Proof. reflexivity. Qed.
Example normpath_ex4 : posixpath.normpath "///a/../.." = "/".
Proof. reflexivity. Qed.
Example join_ex1 : posixpath.join "/build" ["lib"] = "/build/lib".
Proof. reflexivity. Qed.
Example join_ex2 : posixpath.join "/w" ["c3test"; "c3test"] = "/w/c3test/c3test".
Proof. reflexivity. Qed.
Example opt_ex : C3Compiler.get_optimization_args "2" = Ok ["-O2"].
Proof. vm_compute. reflexivity. Qed.
Example compute_ex :
  C3Compiler.compute_parameters_with_absolute_paths 0 "/build"
    {[ 0 := ["-Ilib"; "-Wall"] ]}
  = (0, {[ 0 := ["-I/build/lib"; "-Wall"] ]}).
Proof. vm_compute. reflexivity. Qed.

(** ** The flag table *)

Lemma optimization_levels_keys : c3_optimization_items.*1 = optimization_levels.
Proof. reflexivity. Qed.

(** C1: every level of the closed set has a defined flag sequence (['-O2']
    for '2', the empty one for 'plain'); any other level makes the call
    raise [KeyError] on that level instead of returning a result. *)
Theorem get_optimization_args_closed_set (level : string) :
  (level ∈ optimization_levels →
     ∃ flags, C3Compiler.get_optimization_args level = Ok flags)
  ∧ (level ∉ optimization_levels →
     C3Compiler.get_optimization_args level = Raise (KeyError level))
  ∧ C3Compiler.get_optimization_args "2" = Ok ["-O2"]
  ∧ C3Compiler.get_optimization_args "plain" = Ok [].
Proof.
  unfold C3Compiler.get_optimization_args, dict_subscript.
  split; [|split; [|split; vm_compute; reflexivity]].
  - intros Hin. rewrite <- optimization_levels_keys in Hin.
    apply list_elem_of_fmap in Hin as [[k v] [-> Hkv]].
    destruct (c3_optimization_args !! (k, v).1) as [flags|] eqn:E; [eauto|].
    apply not_elem_of_list_to_map in E. exfalso. apply E.
    apply list_elem_of_fmap. exists (k, v). done.
  - intros Hout. rewrite <- optimization_levels_keys in Hout.
    unfold c3_optimization_args.
    by rewrite (not_elem_of_list_to_map_1 _ _ Hout).
Qed.

Lemma get_optimization_args_closed_set_witness :
  (∃ flags, C3Compiler.get_optimization_args "3" = Ok flags)
  ∧ C3Compiler.get_optimization_args "9" = Raise (KeyError "9").
Proof.
  split.
  - apply (get_optimization_args_closed_set "3").
    apply (bool_decide_unpack _). vm_compute. exact I.
  - apply (get_optimization_args_closed_set "9").
    apply (bool_decide_unpack _). vm_compute. exact I.
Defined.

(** ** Dependency files *)

(** C8: no object file is ever given a depfile path, while the suffix the
    backend advertises is the non-empty string 'd'. *)
Theorem depfile_suffix_without_path (objfile : string) :
  C3Compiler.depfile_for_object objfile = None
  ∧ C3Compiler.get_depfile_suffix = "d"
  ∧ C3Compiler.get_depfile_suffix ≠ "".
Proof. repeat split. discriminate. Qed.

(** ** The sanity check *)

Section SanityCheck.
Variables (self : compiler) (work_dir : string) (environment : Environment).
Variable w : world.

Let r : run := exec w (C3Compiler.sanity_check self work_dir environment).
Let wrote : event :=
  Wrote (posixpath.join work_dir ["c3ctest.c3"]) C3Compiler.probe_source.
Let spawned : event := Spawned (probe_argv self work_dir environment) work_dir.

(** The three ways a run can go, each with everything it leaves behind. *)
Lemma sanity_check_runs :
  let c := probe_child w self work_dir environment in
  let b := binary_child w work_dir in
  r = if negb (Z.eqb (returncode c) 0) then
        Run [wrote; spawned] (output c) "" (Raise (EnvironmentException (cannot_compile self)))
      else if is_cross self then
        Run [wrote; spawned] (output c) "" (Ok tt)
      else
        Run [wrote; spawned; Executed (posixpath.join work_dir ["c3test"; "c3test"])]
            (output c +:+ output b) ""
            (if negb (Z.eqb (returncode b) 0)
             then Raise (EnvironmentException (not_runnable self))
             else Ok tt).
Proof.
  subst r wrote spawned. unfold probe_child, binary_child, probe_argv.
  unfold C3Compiler.sanity_check. cbn [mbind prog_bind bind write_file popen_wait
    subprocess_call exec app].
  destruct (is_cross self) eqn:Hx; cbn [app];
    match goal with |- context [spawn w ?a ?d] => destruct (spawn w a d) as [rc out] end;
    cbn [returncode output]; destruct (Z.eqb rc 0); cbn [negb bind exec];
    unfold emit; cbn [trace console captured outcome returncode output
                      to_console to_pipe];
    rewrite ?append_empty_r; try reflexivity.
  match goal with |- context [execute w ?a] => destruct (execute w a) as [rc' out'] end.
  cbn [returncode output]. destruct (Z.eqb rc' 0); cbn [negb exec trace console
    captured outcome]; by rewrite ?append_empty_r.
Qed.
End SanityCheck.

Lemma startswith_append s t : PyStr.startswith s (s +:+ t) = true.
Proof.
  unfold PyStr.startswith. induction s as [|c s IH].
  - by destruct t.
  - rewrite append_cons. cbn [String.prefix]. by destruct (ascii_dec c c).
Qed.

Lemma contains_infix a s b : contains s (a +:+ s +:+ b) = true.
Proof.
  induction a as [|c a IH].
  - rewrite append_empty_l. pose proof (startswith_append s b) as H.
    destruct (s +:+ b); cbn [contains]; by rewrite H.
  - rewrite append_cons. cbn [contains]. rewrite IH. apply orb_true_r.
Qed.

(** C5: when the compile step exits with a nonzero status, the check
    raises the "cannot compile programs" failure, whose message carries the
    backend's display name, and the produced binary is never run: the only
    calls made are the write of the probe source and the compile step. *)
Theorem sanity_check_compile_failure (self : compiler) (work_dir : string)
    (environment : Environment) (w : world) :
  returncode (probe_child w self work_dir environment) ≠ 0%Z →
  outcome (exec w (C3Compiler.sanity_check self work_dir environment))
    = Raise (EnvironmentException
               ("C3 compiler " +:+ name_string self +:+ " cannot compile programs."))
  ∧ contains (name_string self)
      ("C3 compiler " +:+ name_string self +:+ " cannot compile programs.") = true
  ∧ execute_calls (exec w (C3Compiler.sanity_check self work_dir environment)) = 0
  ∧ trace (exec w (C3Compiler.sanity_check self work_dir environment))
    = [Wrote (posixpath.join work_dir ["c3ctest.c3"]) C3Compiler.probe_source;
       Spawned (probe_argv self work_dir environment) work_dir].
Proof.
  intros Hrc. rewrite sanity_check_runs. cbv zeta.
  apply Z.eqb_neq in Hrc. rewrite Hrc. cbn [negb].
  repeat split. apply contains_infix.
Qed.

Lemma sanity_check_compile_failure_witness :
  returncode (probe_child failing_world broken_c3c "/w" no_external_flags) ≠ 0%Z
  ∧ outcome broken_run
    = Raise (EnvironmentException "C3 compiler c3c cannot compile programs.")
  ∧ execute_calls broken_run = 0.
Proof.
  assert (H : returncode (probe_child failing_world broken_c3c "/w" no_external_flags)
              ≠ 0%Z) by (vm_compute; discriminate).
  split; [exact H|].
  destruct (sanity_check_compile_failure broken_c3c "/w" no_external_flags
              failing_world H) as (Ho & _ & Hn & _).
  split; [exact Ho | exact Hn].
Defined.

(** C6: for a cross compiler whose compile step exits with status zero, the
    check returns normally and the produced binary is never invoked; the
    compile command line carries the compile-only flag where a native
    check would carry the external link arguments. *)
Theorem sanity_check_cross_passes (self : compiler) (work_dir : string)
    (environment : Environment) (w : world) :
  is_cross self = true →
  returncode (probe_child w self work_dir environment) = 0%Z →
  outcome (exec w (C3Compiler.sanity_check self work_dir environment)) = Ok tt
  ∧ execute_calls (exec w (C3Compiler.sanity_check self work_dir environment)) = 0
  ∧ trace (exec w (C3Compiler.sanity_check self work_dir environment))
    = [Wrote (posixpath.join work_dir ["c3ctest.c3"]) C3Compiler.probe_source;
       Spawned (exelist self ++ get_external_args environment
                ++ ["compile-only"]
                ++ ["compile"; "c3ctest.c3"; "-o";
                    posixpath.join work_dir ["c3test"; "c3test"]])
               work_dir].
Proof.
  intros Hx Hrc. rewrite sanity_check_runs. cbv zeta.
  apply Z.eqb_eq in Hrc. rewrite Hrc, Hx. cbn [negb].
  repeat split. cbn [trace]. unfold probe_argv. rewrite Hx.
  unfold C3Compiler.get_compile_only_args. by rewrite <- !app_assoc.
Qed.

Lemma sanity_check_cross_passes_witness :
  is_cross cross_c3c = true
  ∧ returncode (probe_child trusting_world cross_c3c "/w" some_external_flags) = 0%Z
  ∧ outcome (exec trusting_world
               (C3Compiler.sanity_check cross_c3c "/w" some_external_flags)) = Ok tt
  ∧ trace (exec trusting_world
             (C3Compiler.sanity_check cross_c3c "/w" some_external_flags))
    = [Wrote "/w/c3ctest.c3" C3Compiler.probe_source;
       Spawned ["c3c"; "--target"; "linux-x64"; "-g"; "compile-only"; "compile";
                "c3ctest.c3"; "-o"; "/w/c3test/c3test"] "/w"].
Proof.
  assert (Hx : is_cross cross_c3c = true) by reflexivity.
  assert (Hrc : returncode (probe_child trusting_world cross_c3c "/w"
                              some_external_flags) = 0%Z) by reflexivity.
  split; [exact Hx|]. split; [exact Hrc|].
  destruct (sanity_check_cross_passes cross_c3c "/w" some_external_flags
              trusting_world Hx Hrc) as (Ho & _ & Ht).
  split; [exact Ho | exact Ht].
Defined.

(** C7, as stated, fails: in the run of [broken_c3c] the compile step
    prints "error: boom" and exits with status 1; that text reaches the
    console, nothing is captured, and no reported failure contains it. *)
Lemma sanity_check_output_not_captured :
  output (probe_child failing_world broken_c3c "/w" no_external_flags) = "error: boom"
  ∧ console broken_run ≠ ""
  ∧ captured broken_run ≠ "error: boom"
  ∧ ∀ msg, outcome broken_run = Raise (EnvironmentException msg) →
           contains "error: boom" msg = false.
Proof.
  split; [reflexivity|]. split; [vm_compute; discriminate|].
  split; [vm_compute; discriminate|].
  intros msg H. vm_compute in H. injection H as <-. vm_compute. reflexivity.
Qed.

(** *** Runs in which a call may be refused *)

(** On a machine that carries out every call the two semantics agree. *)
Lemma exec_os_answered (w : world) (p : prog unit) :
  exec_os (answered w) p
  = OSRun (trace (exec w p)) (console (exec w p)) (captured (exec w p))
          (ending_of (outcome (exec w p))).
Proof.
  induction p as [[]|e|path content k IH|argv cwd out k IH|program out k IH];
    cbn [exec_os exec answered os_write os_spawn os_execute]; try done.
  - by rewrite IH.
  - by rewrite IH.
  - by rewrite IH.
Qed.

(** Every way a run of the check can go, with everything it leaves
    behind. *)
Lemma sanity_check_os_runs (self : compiler) (work_dir : string)
    (environment : Environment) (w : os_world) :
  probe_run w self work_dir environment
  = match os_write w (source_path work_dir) C3Compiler.probe_source with
    | Some e => os_stop e
    | None =>
        match os_spawn w (probe_argv self work_dir environment) work_dir with
        | inl e =>
            OSRun (take 1 (probe_calls self work_dir environment)) "" "" (Escapes e)
        | inr c =>
            if negb (Z.eqb (returncode c) 0) then
              OSRun (take 2 (probe_calls self work_dir environment)) (output c) ""
                    (Raises (EnvironmentException (cannot_compile self)))
            else if is_cross self then
              OSRun (take 2 (probe_calls self work_dir environment)) (output c) ""
                    Returns
            else
              match os_execute w (output_path work_dir) with
              | inl e =>
                  OSRun (take 2 (probe_calls self work_dir environment))
                        (output c) "" (Escapes e)
              | inr b =>
                  OSRun (probe_calls self work_dir environment)
                        (output c +:+ output b) ""
                        (if negb (Z.eqb (returncode b) 0)
                         then Raises (EnvironmentException (not_runnable self))
                         else Returns)
              end
        end
    end.
Proof.
  unfold probe_run, probe_calls, source_path, output_path, probe_argv.
  unfold C3Compiler.sanity_check. cbn [mbind prog_bind bind write_file popen_wait
    subprocess_call exec_os app take].
  destruct (os_write w _ _) as [e|]; [done|].
  destruct (is_cross self) eqn:Hx; cbn [app];
    match goal with |- context [os_spawn w ?a ?d] =>
      destruct (os_spawn w a d) as [e|[rc out]] end;
    try done;
    cbn [returncode output]; destruct (Z.eqb rc 0); cbn [negb bind exec_os];
    unfold os_emit; cbn [os_trace os_console os_captured os_ending returncode output
                         to_console to_pipe];
    rewrite ?append_empty_r; try reflexivity.
  match goal with |- context [os_execute w ?a] =>
    destruct (os_execute w a) as [e|[rc' out']] end.
  - cbn [os_stop os_trace os_console os_captured os_ending].
    by rewrite ?append_empty_r.
  - cbn [returncode output]. destruct (Z.eqb rc' 0); cbn [negb exec_os os_trace
      os_console os_captured os_ending]; by rewrite ?append_empty_r.
Qed.

(** C7, amended: the children run without redirection, so in every
    failing check nothing is captured. A failure is either an [OSError] of
    [open], [Popen] or [call], which escapes as it is, or a nonzero exit
    status of the compile step or of the binary, reported by one of two
    fixed messages built from the backend's display name alone, which it
    contains; the children's output is then on the console and not in the
    message. *)
Theorem sanity_check_failure_report (self : compiler) (work_dir : string)
    (environment : Environment) (w : os_world) :
  os_ending (probe_run w self work_dir environment) ≠ Returns →
  os_captured (probe_run w self work_dir environment) = ""
  ∧ (∀ msg,
       os_ending (probe_run w self work_dir environment)
         = Raises (EnvironmentException msg) →
       contains (name_string self) msg = true)
  ∧ ((∃ e,
        os_ending (probe_run w self work_dir environment) = Escapes e
        ∧ (os_write w (source_path work_dir) C3Compiler.probe_source = Some e
           ∨ os_spawn w (probe_argv self work_dir environment) work_dir = inl e
           ∨ os_execute w (output_path work_dir) = inl e))
     ∨ (∃ c,
          os_spawn w (probe_argv self work_dir environment) work_dir = inr c
          ∧ returncode c ≠ 0%Z
          ∧ os_ending (probe_run w self work_dir environment)
            = Raises (EnvironmentException
                        ("C3 compiler " +:+ name_string self
                         +:+ " cannot compile programs."))
          ∧ os_console (probe_run w self work_dir environment) = output c)
     ∨ (∃ c b,
          os_spawn w (probe_argv self work_dir environment) work_dir = inr c
          ∧ returncode c = 0%Z
          ∧ is_cross self = false
          ∧ os_execute w (output_path work_dir) = inr b
          ∧ returncode b ≠ 0%Z
          ∧ os_ending (probe_run w self work_dir environment)
            = Raises (EnvironmentException
                        ("Executables created by C3 compiler " +:+ name_string self
                         +:+ " are not runnable."))
          ∧ os_console (probe_run w self work_dir environment)
            = output c +:+ output b)).
Proof.
  rewrite sanity_check_os_runs.
  destruct (os_write w _ _) as [e|] eqn:Hw.
  { intros _. split; [done|]. split; [done|]. left. exists e. auto. }
  destruct (os_spawn w _ _) as [e|c] eqn:Hs.
  { intros _. split; [done|]. split; [done|]. left. exists e. auto. }
  destruct (Z.eqb_spec (returncode c) 0) as [Hc|Hc]; cbn [negb].
  - destruct (is_cross self) eqn:Hx; [done|].
    destruct (os_execute w _) as [e|b] eqn:He.
    { intros _. split; [done|]. split; [done|]. left. exists e. auto. }
    destruct (Z.eqb_spec (returncode b) 0) as [Hb|Hb]; cbn [negb]; [done|].
    intros _. cbn [os_ending os_captured os_console]. split; [done|]. split.
    + intros msg [= <-]. apply contains_infix.
    + right. right. exists c, b. done.
  - intros _. cbn [os_ending os_captured os_console]. split; [done|]. split.
    + intros msg [= <-]. apply contains_infix.
    + right. left. exists c. done.
Qed.

Lemma sanity_check_failure_report_witness :
  os_ending (probe_run no_compiler broken_c3c "/w" no_external_flags) ≠ Returns
  ∧ os_ending (probe_run (answered failing_world) broken_c3c "/w" no_external_flags)
    ≠ Returns
  ∧ os_captured (probe_run no_compiler broken_c3c "/w" no_external_flags) = ""
  ∧ os_captured (probe_run (answered failing_world) broken_c3c "/w" no_external_flags)
    = "".
Proof.
  assert (H1 : os_ending (probe_run no_compiler broken_c3c "/w" no_external_flags)
               ≠ Returns) by (vm_compute; discriminate).
  assert (H2 : os_ending (probe_run (answered failing_world) broken_c3c "/w"
                            no_external_flags) ≠ Returns)
    by (vm_compute; discriminate).
  split; [exact H1|]. split; [exact H2|]. split.
  - exact (proj1 (sanity_check_failure_report broken_c3c "/w" no_external_flags
                    no_compiler H1)).
  - exact (proj1 (sanity_check_failure_report broken_c3c "/w" no_external_flags
                    (answered failing_world) H2)).
Defined.

(** ** The path rewriter: what the in-place loop does to the store *)

Section InPlaceLoop.
Variables (build_dir : string) (r : loc).

Let flag (i : string) : string :=
  if C3Compiler.is_path_flag i then C3Compiler.absolute_flag build_dir i else i.

(** After the indices before [length pre] have been visited, visiting
    the rest rewrites exactly the remaining elements. *)
Lemma loop_from (suf pre : list string) (σ : store) :
  σ !! r = Some (pre ++ suf) →
  foldl (C3Compiler.loop_body build_dir r) σ (seq (length pre) (length suf))
  = <[r := pre ++ (flag <$> suf)]> σ.
Proof.
  revert pre σ. induction suf as [|x suf IH]; intros pre σ Hσ.
  - cbn. symmetry. by apply insert_id.
  - cbn [length seq foldl]. unfold C3Compiler.loop_body at 2, getitem.
    rewrite Hσ. cbn [mbind option_bind]. rewrite list_lookup_middle by done.
    specialize (IH (pre ++ [flag x])). rewrite length_app, Nat.add_1_r in IH.
    rewrite fmap_cons, (cons_middle (flag x)), app_assoc.
    subst flag. cbn beta in *. destruct (C3Compiler.is_path_flag x).
    + unfold setitem. rewrite IH.
      * apply insert_alter_eq.
      * rewrite lookup_alter_eq, Hσ. cbn. f_equal.
        rewrite <- (Nat.add_0_r (length pre)), insert_app_r. cbn.
        by rewrite <- app_assoc.
    + apply IH. by rewrite <- app_assoc.
Qed.

Lemma compute_parameters_store (l : list string) (σ : store) :
  σ !! r = Some l →
  C3Compiler.compute_parameters_with_absolute_paths r build_dir σ
  = (r, <[r := rewritten build_dir l]> σ).
Proof.
  intros Hσ. unfold C3Compiler.compute_parameters_with_absolute_paths, list_len.
  rewrite Hσ. f_equal. exact (loop_from l [] σ Hσ).
Qed.
End InPlaceLoop.

Lemma rewritten_length build_dir l : length (rewritten build_dir l) = length l.
Proof. apply length_fmap. Qed.

Lemma rewritten_lookup build_dir l idx :
  rewritten build_dir l !! idx
  = (fun i => if C3Compiler.is_path_flag i
              then C3Compiler.absolute_flag build_dir i else i) <$> l !! idx.
Proof. apply list_lookup_fmap. Qed.

(** ** Splitting and joining on the separator *)

Section SplitJoin.
Import PyStr.

Lemma startswith_cons c p a s :
  startswith (String c p) (String a s) = Ascii.eqb c a && startswith p s.
Proof.
  unfold startswith. cbn [String.prefix].
  destruct (ascii_dec c a) as [->|Hne].
  - by rewrite Ascii.eqb_refl.
  - apply Ascii.eqb_neq in Hne. by rewrite Hne.
Qed.

Lemma startswith_empty s : startswith "" s = true.
Proof. by destruct s. Qed.

Lemma split_sep_not_nil s : split_sep s ≠ [].
Proof.
  destruct s as [|c s]; cbn; [done|].
  destruct (Ascii.eqb c sep); [done|]. by destruct (split_sep s).
Qed.

Lemma split_sep_sep s : split_sep (String sep s) = "" :: split_sep s.
Proof. reflexivity. Qed.

(** A separator in the middle splits the two sides independently. *)
Lemma split_sep_app a b :
  split_sep (a +:+ String sep b) = split_sep a ++ split_sep b.
Proof.
  induction a as [|c a IH]; [done|].
  rewrite append_cons. cbn [split_sep]. rewrite IH.
  destruct (Ascii.eqb c sep); [done|].
  pose proof (split_sep_not_nil a). by destruct (split_sep a).
Qed.

Lemma split_sep_free s : Forall (fun c => sep_free c = true) (split_sep s).
Proof.
  induction s as [|c s IH]; cbn [split_sep]; [by repeat constructor|].
  destruct (Ascii.eqb c sep) eqn:Hc; [by constructor|].
  destruct IH as [|w ws Hw Hws]; repeat constructor; cbn; rewrite ?Hc; done.
Qed.

Lemma split_sep_free_id s : sep_free s = true → split_sep s = [s].
Proof.
  induction s as [|c s IH]; [done|]. cbn.
  destruct (Ascii.eqb c sep); [done|]. cbn. intros Hs. by rewrite IH.
Qed.

Lemma join_sep_cons c d ds :
  join_sep (c :: d :: ds) = c +:+ String sep (join_sep (d :: ds)).
Proof. reflexivity. Qed.

(** [split] undoes [join] on separator-free components. *)
Lemma split_join_sep comps :
  comps ≠ [] → Forall (fun c => sep_free c = true) comps →
  split_sep (join_sep comps) = comps.
Proof.
  induction comps as [|c [|d ds] IH]; intros Hne Hall; [done| |].
  - apply split_sep_free_id. by inversion Hall.
  - rewrite join_sep_cons, split_sep_app.
    inversion Hall as [|? ? Hc Hds]; subst.
    rewrite (split_sep_free_id c Hc), IH; done.
Qed.

(** A join of components that are non-empty and separator-free does not
    begin with the separator. *)
Lemma join_sep_head c cs :
  c ≠ "" → sep_free c = true → ∃ a s, join_sep (c :: cs) = String a s ∧ a ≠ sep.
Proof.
  intros Hne Hfree. destruct c as [|a c]; [done|].
  cbn in Hfree. apply andb_true_iff in Hfree as [Ha _].
  apply negb_true_iff, Ascii.eqb_neq in Ha.
  destruct cs as [|d ds]; [by exists a, c|].
  rewrite join_sep_cons, append_cons. eauto.
Qed.
End SplitJoin.

(** ** The component stack of [normpath] *)

Section ComponentStack.
Import PyStr posixpath.
Variable k : nat.

Lemma is_nil_snoc (st : list string) y : is_nil (st ++ [y]) = false.
Proof. by destruct st. Qed.

Lemma last_is_dotdot_snoc st y : last_is_dotdot (st ++ [y]) = String.eqb y "..".
Proof. unfold last_is_dotdot. by rewrite last_snoc. Qed.

Lemma proper_dotdot : proper "..".
Proof. by repeat split. Qed.

Lemma normal_nil : normal k [].
Proof. split; [constructor|]. intros [|] ? ?; discriminate. Qed.

Lemma normal_proper st : normal k st → Forall proper st.
Proof. by intros [? _]. Qed.

Lemma normal_sep_free st : normal k st → Forall (fun c => sep_free c = true) st.
Proof. intros [H _]. eapply Forall_impl; [exact H|]. by intros c (_ & _ & ?). Qed.

Lemma normal_pop st c : normal k (st ++ [c]) → normal k st.
Proof.
  intros [Hall Hdd]. split.
  - by apply Forall_app in Hall as [? _].
  - intros pre post ->. apply (Hdd pre (post ++ [c])). by rewrite <- app_assoc.
Qed.

Lemma normal_push st c : normal k st → proper c → c ≠ ".." → normal k (st ++ [c]).
Proof.
  intros [Hall Hdd] Hc Hne. split.
  - apply Forall_app. split; [done|by constructor].
  - intros pre post Heq. destruct post as [|y post _] using rev_ind.
    + apply app_inj_tail in Heq as [_ ?]. done.
    + rewrite app_comm_cons, app_assoc in Heq.
      apply app_inj_tail in Heq as [-> _]. by apply (Hdd pre post).
Qed.

Lemma normal_push_dotdot st :
  k = 0 → Forall (fun c => c = "..") st → normal k (st ++ [".."]).
Proof.
  intros Hk Hst. split.
  - apply Forall_app. split; [|by repeat constructor; apply proper_dotdot].
    eapply Forall_impl; [exact Hst|]. intros c ->. apply proper_dotdot.
  - intros pre post Heq. split; [done|].
    assert (Hall : Forall (fun c => c = "..") (st ++ [".."]))
      by (apply Forall_app; split; [done|by repeat constructor]).
    rewrite Heq in Hall. by apply Forall_app in Hall as [? _].
Qed.

(** Empty components and single dots are dropped. *)
Lemma step_skip st c : c = "" ∨ c = "." → normpath_step k st c = st.
Proof. by intros [-> | ->]. Qed.

(** When a component is appended. *)
Lemma step_push st c :
  proper c → c ≠ ".." ∨ (k = 0 ∧ Forall (fun c => c = "..") st) →
  normpath_step k st c = st ++ [c].
Proof.
  intros (Hne & Hdot & _) Hcase. unfold normpath_step.
  apply String.eqb_neq in Hne, Hdot. rewrite Hne, Hdot. cbn [orb].
  destruct (String.eqb_spec c "..") as [->|_]; [|done]. cbn [negb orb].
  destruct Hcase as [?|[-> Hst]]; [done|]. cbn [Nat.eqb andb].
  destruct st as [|y st _] using rev_ind; [done|].
  rewrite is_nil_snoc, last_is_dotdot_snoc. cbn [negb andb orb].
  apply Forall_app in Hst as [_ Hy]. inversion Hy; subst. done.
Qed.

(** The loop body keeps the stack in shape. *)
Lemma step_normal st c :
  normal k st → sep_free c = true → normal k (normpath_step k st c).
Proof.
  intros Hst Hfree.
  destruct (String.eqb_spec c "") as [->|Hne]; [by rewrite step_skip; auto|].
  destruct (String.eqb_spec c ".") as [->|Hdot]; [by rewrite step_skip; auto|].
  destruct (String.eqb_spec c "..") as [->|Hdd].
  - unfold normpath_step. cbn [String.eqb Ascii.eqb Bool.eqb orb negb].
    destruct st as [|y st _] using rev_ind.
    + cbn [is_nil negb andb orb]. rewrite andb_true_r.
      destruct (Nat.eqb_spec k 0) as [Hk|_]; [|done].
      apply (normal_push_dotdot []); [done|constructor].
    + rewrite is_nil_snoc, last_is_dotdot_snoc, andb_false_r. cbn [negb andb orb].
      destruct (String.eqb_spec y "..") as [->|_].
      * destruct Hst as [Hall Hshape].
        destruct (Hshape st [] eq_refl) as [Hk Hpre].
        apply normal_push_dotdot; [done|].
        apply Forall_app. split; [done|by repeat constructor].
      * rewrite removelast_last. by apply normal_pop in Hst.
  - rewrite step_push; [|done|by left]. by apply normal_push.
Qed.

Lemma foldl_step_normal comps st :
  normal k st → Forall (fun c => sep_free c = true) comps →
  normal k (foldl (normpath_step k) st comps).
Proof.
  revert st. induction comps as [|c comps IH]; intros st Hst Hall; [done|].
  inversion Hall; subst. cbn [foldl]. apply IH; [|done]. by apply step_normal.
Qed.

(** On components already in shape the loop rebuilds them unchanged. *)
Lemma foldl_step_id l st :
  normal k (st ++ l) → foldl (normpath_step k) st l = st ++ l.
Proof.
  revert st. induction l as [|x l IH]; intros st Hn; [by rewrite app_nil_r|].
  cbn [foldl]. rewrite step_push.
  - rewrite IH; rewrite <- app_assoc; done.
  - destruct Hn as [Hall _]. apply Forall_app in Hall as [_ Hx]. by inversion Hx.
  - destruct (decide (x = "..")) as [->|?]; [right|by left].
    destruct Hn as [_ Hshape]. by apply (Hshape st l).
Qed.

Lemma foldl_split_join nc :
  normal k nc → foldl (normpath_step k) [] (split_sep (join_sep nc)) = nc.
Proof.
  intros Hn. destruct nc as [|c cs]; [done|].
  rewrite split_join_sep; [by apply (foldl_step_id _ [])|done|].
  by apply normal_sep_free.
Qed.

Lemma join_sep_no_lead nc : normal k nc → startswith "/" (join_sep nc) = false.
Proof.
  intros Hn. destruct nc as [|c cs]; [done|].
  apply normal_proper in Hn. inversion Hn as [|? ? (Hne & _ & Hfree) _]; subst.
  destruct (join_sep_head c cs Hne Hfree) as (a & s & -> & Ha).
  rewrite startswith_cons. apply not_eq_sym, Ascii.eqb_neq in Ha.
  unfold sep in Ha. by rewrite Ha.
Qed.
End ComponentStack.

(** ** [normpath] *)

Section Normpath.
Import PyStr posixpath.

Lemma initial_slashes_le p : initial_slashes p ≤ 2.
Proof.
  unfold initial_slashes. destruct (startswith "/" p); [|lia].
  destruct (_ && _); lia.
Qed.

Lemma normpath_assemble p :
  p ≠ "" →
  normpath p = assemble (initial_slashes p)
                 (foldl (normpath_step (initial_slashes p)) [] (split_sep p)).
Proof.
  intros Hne. unfold normpath. apply String.eqb_neq in Hne. by rewrite Hne.
Qed.

Lemma normpath_normal p :
  normal (initial_slashes p)
    (foldl (normpath_step (initial_slashes p)) [] (split_sep p)).
Proof. apply foldl_step_normal; [apply normal_nil|apply split_sep_free]. Qed.

(** What [assemble] yields reads back as the same leading separators
    and the same components. *)
Lemma assemble_reads_back k nc :
  normal k nc → k ≤ 2 → nc ≠ [] ∨ k ≠ 0 →
  assemble k nc ≠ ""
  ∧ initial_slashes (assemble k nc) = k
  ∧ foldl (normpath_step k) [] (split_sep (assemble k nc)) = nc.
Proof.
  intros Hn Hk Hcase.
  pose proof (join_sep_no_lead k nc Hn) as Hlead.
  pose proof (foldl_split_join k nc Hn) as Hfold.
  unfold assemble. destruct k as [|[|[|k]]]; [| | |lia]; cbn [Nat.eqb seps].
  - destruct Hcase as [Hne|?]; [|done]. destruct nc as [|c cs]; [done|].
    pose proof (normal_proper _ _ Hn) as Hp.
    inversion Hp as [|? ? (Hc & _ & Hfree) _]; subst.
    destruct (join_sep_head c cs Hc Hfree) as (a & s & Hj & Ha).
    rewrite Hj in *. cbn [String.eqb]. split; [done|]. split; [|done].
    unfold initial_slashes. by rewrite Hlead.
  - rewrite append_cons, append_empty_l. cbn [String.eqb].
    split; [done|]. split.
    + unfold initial_slashes. rewrite !startswith_cons, !startswith_empty, ?Hlead.
      reflexivity.
    + rewrite split_sep_sep. cbn [foldl]. by rewrite step_skip by auto.
  - rewrite !append_cons, append_empty_l. cbn [String.eqb].
    split; [done|]. split.
    + unfold initial_slashes. rewrite !startswith_cons, !startswith_empty, ?Hlead.
      reflexivity.
    + rewrite !split_sep_sep. cbn [foldl]. by rewrite !step_skip by auto.
Qed.

Lemma normpath_assembled k nc :
  normal k nc → k ≤ 2 → normpath (assemble k nc) = assemble k nc.
Proof.
  intros Hn Hk.
  destruct (decide (nc = [] ∧ k = 0)) as [[-> ->]|Hcase]; [reflexivity|].
  assert (nc ≠ [] ∨ k ≠ 0) as Hcase'.
  { destruct nc; [right|by left]. intros ->. by apply Hcase. }
  destruct (assemble_reads_back k nc Hn Hk Hcase') as (Hne & Hsl & Hfold).
  rewrite normpath_assemble by done. by rewrite Hsl, Hfold.
Qed.

(** Normalizing a normalized path changes nothing. *)
Lemma normpath_idempotent p : normpath (normpath p) = normpath p.
Proof.
  destruct (decide (p = "")) as [->|Hne]; [reflexivity|].
  rewrite (normpath_assemble p Hne).
  apply normpath_assembled; [apply normpath_normal|apply initial_slashes_le].
Qed.

Lemma normpath_not_empty p : normpath p ≠ "".
Proof.
  unfold normpath. destruct (String.eqb p ""); [done|].
  by destruct (String.eqb_spec
    (if Nat.eqb (initial_slashes p) 0
     then join_sep (foldl (normpath_step (initial_slashes p)) [] (split_sep p))
     else seps (initial_slashes p)
          +:+ join_sep (foldl (normpath_step (initial_slashes p)) [] (split_sep p)))
    "").
Qed.

(** An absolute path stays absolute. *)
Lemma normpath_absolute p :
  startswith "/" p = true → startswith "/" (normpath p) = true.
Proof.
  intros Habs. assert (p ≠ "") as Hne by (by intros ->).
  rewrite normpath_assemble by done. unfold assemble, initial_slashes.
  rewrite Habs. destruct (_ && _); cbn [Nat.eqb seps];
    rewrite !append_cons; cbn [String.eqb]; by rewrite startswith_cons, startswith_empty.
Qed.
End Normpath.

(** ** [join] against a build directory *)

Section Join.
Import PyStr posixpath.

Lemma join_absolute_component a b : startswith "/" b = true → join a [b] = b.
Proof. intros Hb. cbn. unfold join_step. by rewrite Hb. Qed.

Lemma startswith_sep_append a t :
  startswith "/" a = true → startswith "/" (a +:+ t) = true.
Proof.
  destruct a as [|c a]; [done|]. rewrite append_cons, !startswith_cons.
  by rewrite !startswith_empty.
Qed.

Lemma join_absolute_base a b :
  startswith "/" a = true → startswith "/" (join a [b]) = true.
Proof.
  intros Ha. cbn. unfold join_step.
  destruct (startswith "/" b) eqn:Hb; [done|].
  destruct (String.eqb_spec a "") as [->|_]; [done|]. cbn [orb].
  destruct (endswith_sep a); by apply startswith_sep_append.
Qed.

(** A trailing separator does not change the count of leading ones,
    unless the path consists of separators only. *)
Lemma initial_slashes_trailing_sep a :
  a ≠ "" → endswith_sep a = false →
  initial_slashes (a +:+ "/") = initial_slashes a.
Proof.
  intros Hne Hend. unfold initial_slashes.
  destruct a as [|c1 [|c2 [|c3 a]]]; [done| | |].
  - cbn in Hend. rewrite append_cons, append_empty_l, !startswith_cons.
    unfold sep in Hend. rewrite (Ascii.eqb_sym "/" c1), Hend. done.
  - cbn in Hend. rewrite !append_cons, append_empty_l, !startswith_cons.
    unfold sep in Hend. rewrite (Ascii.eqb_sym "/" c2), Hend.
    cbn. by rewrite !andb_false_r.
  - by rewrite !append_cons, !startswith_cons, !startswith_empty.
Qed.

Lemma normpath_trailing_sep a :
  a ≠ "" → endswith_sep a = false → normpath (a +:+ "/") = normpath a.
Proof.
  intros Hne Hend.
  assert (a +:+ "/" ≠ "") as Hne' by (by destruct a).
  rewrite !normpath_assemble by done.
  rewrite initial_slashes_trailing_sep by done.
  change (a +:+ "/") with (a +:+ String sep "").
  rewrite (split_sep_app a ""), foldl_app. cbn [split_sep foldl].
  by rewrite step_skip by auto.
Qed.

(** Joining the empty remainder onto a directory names that directory. *)
Lemma normpath_join_empty a : normpath (join a [""]) = normpath a.
Proof.
  cbn. unfold join_step. cbn [startswith String.prefix orb].
  destruct (String.eqb_spec a "") as [->|Hne]; [done|].
  destruct (endswith_sep a) eqn:Hend.
  - by rewrite append_empty_r.
  - by apply normpath_trailing_sep.
Qed.
End Join.

(** ** Single flags *)

Section Flags.
Import PyStr posixpath.
Variable build_dir : string.

Lemma is_path_flag_prefix i :
  C3Compiler.is_path_flag i = true → slice_to 2 i = "-I" ∨ slice_to 2 i = "-L".
Proof.
  unfold C3Compiler.is_path_flag. intros H.
  apply orb_true_iff in H as [H|H]; apply String.eqb_eq in H; auto.
Qed.

Lemma absolute_flag_shape i :
  C3Compiler.is_path_flag i = true →
  ∃ pre, (pre = "-I" ∨ pre = "-L")
         ∧ slice_to 2 i = pre
         ∧ C3Compiler.absolute_flag build_dir i
           = pre +:+ normpath (join build_dir [slice_from 2 i])
         ∧ C3Compiler.is_path_flag (C3Compiler.absolute_flag build_dir i) = true
         ∧ slice_from 2 (C3Compiler.absolute_flag build_dir i)
           = normpath (join build_dir [slice_from 2 i]).
Proof.
  intros H. unfold C3Compiler.absolute_flag, C3Compiler.is_path_flag.
  destruct (is_path_flag_prefix i H) as [-> | ->];
    [exists "-I" | exists "-L"]; repeat split; auto.
Qed.

(** Under an absolute build directory a rewritten flag is a fixed point
    of the rewrite. *)
Lemma absolute_flag_fixed i :
  startswith "/" build_dir = true → C3Compiler.is_path_flag i = true →
  C3Compiler.absolute_flag build_dir (C3Compiler.absolute_flag build_dir i)
  = C3Compiler.absolute_flag build_dir i.
Proof.
  intros Habs Hi.
  destruct (absolute_flag_shape i Hi) as (pre & Hpre & Hto & Heq & Hflag & Hfrom).
  unfold C3Compiler.absolute_flag at 1. rewrite Hfrom.
  rewrite join_absolute_component
    by (by apply normpath_absolute, join_absolute_base).
  rewrite normpath_idempotent, Heq.
  by destruct Hpre as [-> | ->].
Qed.

Lemma rewritten_fixed l :
  startswith "/" build_dir = true →
  rewritten build_dir (rewritten build_dir l) = rewritten build_dir l.
Proof.
  intros Habs. unfold rewritten. rewrite <- list_fmap_compose.
  apply list_fmap_ext. intros _ i _. cbn.
  destruct (C3Compiler.is_path_flag i) eqn:Hi; [|by rewrite Hi].
  destruct (absolute_flag_shape i Hi) as (_ & _ & _ & _ & -> & _).
  by apply absolute_flag_fixed.
Qed.
End Flags.

(** ** The path rewriter as the caller sees it *)

(** C2, as stated, fails: the call on the caller's list (object 0)
    returns object 0 itself, and that object no longer holds what the
    caller put in it. *)
Lemma compute_parameters_overwrites_input :
  caller_store !! 0 = Some ["-Ilib"; "-Wall"]
  ∧ C3Compiler.compute_parameters_with_absolute_paths 0 "/build" caller_store
    = (0, {[ 0 := ["-I/build/lib"; "-Wall"] ]})
  ∧ (C3Compiler.compute_parameters_with_absolute_paths 0 "/build" caller_store).2 !! 0
    ≠ caller_store !! 0.
Proof.
  split; [reflexivity|]. split; [vm_compute; reflexivity|].
  vm_compute. discriminate.
Qed.

(** C2, amended: the call overwrites its input list in place and returns
    that same object; the list keeps its length, each element is replaced
    at its own index by its rewrite, and no other object of the store is
    touched. *)
Theorem compute_parameters_in_place (r : loc) (build_dir : string)
    (σ : store) (l : list string) :
  σ !! r = Some l →
  (C3Compiler.compute_parameters_with_absolute_paths r build_dir σ).1 = r
  ∧ (C3Compiler.compute_parameters_with_absolute_paths r build_dir σ).2 !! r
    = Some (rewritten build_dir l)
  ∧ length (rewritten build_dir l) = length l
  ∧ (∀ idx, rewritten build_dir l !! idx
            = (fun i => if C3Compiler.is_path_flag i
                        then C3Compiler.absolute_flag build_dir i else i)
              <$> l !! idx)
  ∧ ∀ r', r' ≠ r →
      (C3Compiler.compute_parameters_with_absolute_paths r build_dir σ).2 !! r'
      = σ !! r'.
Proof.
  intros Hσ. rewrite (compute_parameters_store build_dir r l σ Hσ). cbn [fst snd].
  split; [done|]. split; [apply lookup_insert_eq|].
  split; [apply rewritten_length|]. split; [apply rewritten_lookup|].
  intros r' Hne. by apply lookup_insert_ne.
Qed.

Lemma compute_parameters_in_place_witness :
  caller_store !! 0 = Some ["-Ilib"; "-Wall"]
  ∧ (C3Compiler.compute_parameters_with_absolute_paths 0 "/build" caller_store).1 = 0
  ∧ (C3Compiler.compute_parameters_with_absolute_paths 0 "/build" caller_store).2 !! 0
    = Some (rewritten "/build" ["-Ilib"; "-Wall"]).
Proof.
  assert (H : caller_store !! 0 = Some ["-Ilib"; "-Wall"]) by reflexivity.
  split; [exact H|].
  destruct (compute_parameters_in_place 0 "/build" caller_store _ H)
    as (H1 & H2 & _).
  split; [exact H1 | exact H2].
Defined.

(** C3, as stated, fails: under the relative build directory 'build' a
    second call prefixes the directory once more. *)
Lemma compute_parameters_relative_not_idempotent :
  C3Compiler.compute_parameters_with_absolute_paths 0 "build" relative_store
    = (0, {[ 0 := ["-Ibuild/lib"] ]})
  ∧ C3Compiler.compute_parameters_with_absolute_paths 0 "build"
      {[ 0 := ["-Ibuild/lib"] ]}
    = (0, {[ 0 := ["-Ibuild/build/lib"] ]})
  ∧ ({[ 0 := ["-Ibuild/build/lib"] ]} : store) !! 0
    ≠ ({[ 0 := ["-Ibuild/lib"] ]} : store) !! 0.
Proof.
  split; [vm_compute; reflexivity|]. split; [vm_compute; reflexivity|].
  vm_compute. discriminate.
Qed.

(** C3, amended: when the build directory is absolute (begins with '/'),
    calling the method again on what the first call returned, with the
    same build directory, changes nothing. *)
Theorem compute_parameters_idempotent_absolute (r : loc) (build_dir : string)
    (σ : store) (l : list string) :
  PyStr.startswith "/" build_dir = true →
  σ !! r = Some l →
  C3Compiler.compute_parameters_with_absolute_paths
    (C3Compiler.compute_parameters_with_absolute_paths r build_dir σ).1 build_dir
    (C3Compiler.compute_parameters_with_absolute_paths r build_dir σ).2
  = C3Compiler.compute_parameters_with_absolute_paths r build_dir σ.
Proof.
  intros Habs Hσ. rewrite (compute_parameters_store build_dir r l σ Hσ). cbn [fst snd].
  rewrite (compute_parameters_store build_dir r (rewritten build_dir l))
    by apply lookup_insert_eq.
  by rewrite insert_insert_eq, rewritten_fixed.
Qed.

Lemma compute_parameters_idempotent_absolute_witness :
  PyStr.startswith "/" "/build" = true
  ∧ caller_store !! 0 = Some ["-Ilib"; "-Wall"]
  ∧ C3Compiler.compute_parameters_with_absolute_paths
      (C3Compiler.compute_parameters_with_absolute_paths 0 "/build" caller_store).1
      "/build"
      (C3Compiler.compute_parameters_with_absolute_paths 0 "/build" caller_store).2
    = C3Compiler.compute_parameters_with_absolute_paths 0 "/build" caller_store.
Proof.
  assert (Ha : PyStr.startswith "/" "/build" = true) by reflexivity.
  assert (H : caller_store !! 0 = Some ["-Ilib"; "-Wall"]) by reflexivity.
  split; [exact Ha|]. split; [exact H|].
  exact (compute_parameters_idempotent_absolute 0 "/build" caller_store _ Ha H).
Defined.

(** C4: the list the call returns has the length of the input; at every
    index it holds the input's flag of that index, rewritten to
    prefix + normpath(join(build_dir, rest)) when the flag begins with
    '-I' or '-L' and identical otherwise; ['-Ilib', '-Wall'] under
    '/build' becomes ['-I/build/lib', '-Wall']. *)
Theorem compute_parameters_preserves_flags (r : loc) (build_dir : string)
    (σ : store) (l : list string) :
  σ !! r = Some l →
  (∃ l',
     (C3Compiler.compute_parameters_with_absolute_paths r build_dir σ).2
       !! (C3Compiler.compute_parameters_with_absolute_paths r build_dir σ).1
     = Some l'
     ∧ length l' = length l
     ∧ (∀ idx i, l !! idx = Some i → C3Compiler.is_path_flag i = false →
                 l' !! idx = Some i)
     ∧ (∀ idx i, l !! idx = Some i → C3Compiler.is_path_flag i = true →
                 l' !! idx
                 = Some (PyStr.slice_to 2 i
                         +:+ posixpath.normpath
                               (posixpath.join build_dir [PyStr.slice_from 2 i]))))
  ∧ C3Compiler.compute_parameters_with_absolute_paths 0 "/build"
      {[ 0 := ["-Ilib"; "-Wall"] ]}
    = (0, {[ 0 := ["-I/build/lib"; "-Wall"] ]}).
Proof.
  intros Hσ. split; [|vm_compute; reflexivity].
  rewrite (compute_parameters_store build_dir r l σ Hσ). cbn [fst snd].
  exists (rewritten build_dir l). split; [apply lookup_insert_eq|].
  split; [apply rewritten_length|].
  split; intros idx i Hi Hflag; rewrite rewritten_lookup, Hi; cbn; by rewrite Hflag.
Qed.

Lemma compute_parameters_preserves_flags_witness :
  caller_store !! 0 = Some ["-Ilib"; "-Wall"]
  ∧ ∃ l',
      (C3Compiler.compute_parameters_with_absolute_paths 0 "/build" caller_store).2
        !! (C3Compiler.compute_parameters_with_absolute_paths 0 "/build" caller_store).1
      = Some l'
      ∧ length l' = 2.
Proof.
  assert (H : caller_store !! 0 = Some ["-Ilib"; "-Wall"]) by reflexivity.
  split; [exact H|].
  destruct (compute_parameters_preserves_flags 0 "/build" caller_store _ H)
    as [(l' & Hl' & Hlen & _) _].
  exists l'. split; [exact Hl' | exact Hlen].
Defined.

(** ** Include flags and bare prefixes *)

(** C9, as stated, fails: for the directory '-Ifoo' the second include
    flag begins with '-I' and the rewriter changes it. *)
Lemma include_args_dashed_path_rewritten :
  C3Compiler.get_include_args "-Ifoo" false = ["--libdir"; "-Ifoo"]
  ∧ C3Compiler.compute_parameters_with_absolute_paths 0 "/build" dashed_include_store
    = (0, {[ 0 := ["--libdir"; "-I/build/foo"] ]})
  ∧ (C3Compiler.compute_parameters_with_absolute_paths 0 "/build"
       dashed_include_store).2 !! 0
    ≠ dashed_include_store !! 0.
Proof.
  split; [reflexivity|]. split; [vm_compute; reflexivity|].
  vm_compute. discriminate.
Qed.

(** C9, amended: the include flags of [p] are ['--libdir', p] whatever
    [is_system] is, and when the first two characters of [p] are neither
    '-I' nor '-L' the rewriter leaves a list holding them as it was. *)
Theorem include_args_not_rewritten (p : string) (is_system : bool)
    (r : loc) (build_dir : string) (σ : store) :
  C3Compiler.is_path_flag p = false →
  σ !! r = Some (C3Compiler.get_include_args p is_system) →
  C3Compiler.get_include_args p is_system = ["--libdir"; p]
  ∧ C3Compiler.compute_parameters_with_absolute_paths r build_dir σ = (r, σ).
Proof.
  intros Hp Hσ. split; [reflexivity|].
  rewrite (compute_parameters_store build_dir r _ σ Hσ). f_equal.
  apply insert_id. rewrite Hσ. unfold rewritten, C3Compiler.get_include_args.
  cbn [fmap list_fmap]. rewrite Hp. reflexivity.
Qed.

Lemma include_args_not_rewritten_witness :
  C3Compiler.is_path_flag "subprojects/lib" = false
  ∧ ({[ 0 := C3Compiler.get_include_args "subprojects/lib" true ]} : store) !! 0
    = Some (C3Compiler.get_include_args "subprojects/lib" true)
  ∧ C3Compiler.compute_parameters_with_absolute_paths 0 "/build"
      {[ 0 := C3Compiler.get_include_args "subprojects/lib" true ]}
    = (0, {[ 0 := C3Compiler.get_include_args "subprojects/lib" true ]}).
Proof.
  assert (Hp : C3Compiler.is_path_flag "subprojects/lib" = false) by reflexivity.
  assert (H : ({[ 0 := C3Compiler.get_include_args "subprojects/lib" true ]} : store)
              !! 0 = Some (C3Compiler.get_include_args "subprojects/lib" true))
    by reflexivity.
  split; [exact Hp|]. split; [exact H|].
  exact (proj2 (include_args_not_rewritten "subprojects/lib" true 0 "/build" _ Hp H)).
Defined.

(** C10: a flag that is exactly '-I' or '-L' counts as path-bearing, and
    the call replaces it by the prefix followed by the normalized build
    directory, which is never the bare prefix again. *)
Theorem bare_prefix_rewritten (i : string) (r : loc) (idx : nat)
    (build_dir : string) (σ : store) (l : list string) :
  i = "-I" ∨ i = "-L" →
  σ !! r = Some l →
  l !! idx = Some i →
  C3Compiler.is_path_flag i = true
  ∧ getitem r idx (C3Compiler.compute_parameters_with_absolute_paths r build_dir σ).2
    = Some (i +:+ posixpath.normpath build_dir)
  ∧ i +:+ posixpath.normpath build_dir ≠ i.
Proof.
  intros Hi Hσ Hidx.
  assert (C3Compiler.is_path_flag i = true) as Hflag by (by destruct Hi as [-> | ->]).
  split; [done|]. split.
  - rewrite (compute_parameters_store build_dir r l σ Hσ). cbn [snd].
    unfold getitem. rewrite lookup_insert_eq. cbn [mbind option_bind].
    rewrite rewritten_lookup, Hidx. cbn. rewrite Hflag. f_equal.
    unfold C3Compiler.absolute_flag.
    destruct Hi as [-> | ->]; cbn [PyStr.slice_to PyStr.slice_from];
      by rewrite normpath_join_empty.
  - pose proof (normpath_not_empty build_dir) as Hne.
    destruct Hi as [-> | ->]; rewrite !append_cons, append_empty_l;
      intros [= Heq]; done.
Qed.

Lemma bare_prefix_rewritten_witness :
  ("-I" = "-I" ∨ "-I" = "-L")
  ∧ ({[ 0 := ["-I"; "-Wall"] ]} : store) !! 0 = Some ["-I"; "-Wall"]
  ∧ ["-I"; "-Wall"] !! 0 = Some "-I"
  ∧ getitem 0 0
      (C3Compiler.compute_parameters_with_absolute_paths 0 "/build/"
         {[ 0 := ["-I"; "-Wall"] ]}).2
    = Some ("-I" +:+ posixpath.normpath "/build/").
Proof.
  assert (Hi : "-I" = "-I" ∨ "-I" = "-L") by (left; reflexivity).
  assert (Hσ : ({[ 0 := ["-I"; "-Wall"] ]} : store) !! 0 = Some ["-I"; "-Wall"])
    by reflexivity.
  assert (Hidx : ["-I"; "-Wall"] !! 0 = Some "-I") by reflexivity.
  split; [exact Hi|]. split; [exact Hσ|]. split; [exact Hidx|].
  destruct (bare_prefix_rewritten "-I" 0 0 "/build/" _ _ Hi Hσ Hidx) as (_ & H & _).
  exact H.
Defined.

(** * Further properties of the backend *)

(** ** The sanity check, run by run *)

(** X1: a native toolchain whose probe compiles and whose binary exits
    with status zero passes the check, the binary having been run exactly
    once, after the write and the compile. *)
Theorem sanity_check_native_passes (self : compiler) (work_dir : string)
    (environment : Environment) (w : world) :
  is_cross self = false →
  returncode (probe_child w self work_dir environment) = 0%Z →
  returncode (binary_child w work_dir) = 0%Z →
  outcome (exec w (C3Compiler.sanity_check self work_dir environment)) = Ok tt
  ∧ execute_calls (exec w (C3Compiler.sanity_check self work_dir environment)) = 1
  ∧ trace (exec w (C3Compiler.sanity_check self work_dir environment))
    = [Wrote (posixpath.join work_dir ["c3ctest.c3"]) C3Compiler.probe_source;
       Spawned (exelist self ++ get_external_args environment
                ++ get_external_link_args environment
                ++ ["compile"; "c3ctest.c3"; "-o";
                    posixpath.join work_dir ["c3test"; "c3test"]])
               work_dir;
       Executed (posixpath.join work_dir ["c3test"; "c3test"])].
Proof.
  intros Hx Hc Hb. rewrite sanity_check_runs. cbv zeta.
  apply Z.eqb_eq in Hc, Hb. rewrite Hc, Hx, Hb. cbn [negb].
  repeat split. cbn [trace]. unfold probe_argv. rewrite Hx.
  by rewrite <- !app_assoc.
Qed.

Lemma sanity_check_native_passes_witness :
  is_cross native_c3c = false
  ∧ returncode (probe_child healthy_world native_c3c "/w" some_external_flags) = 0%Z
  ∧ returncode (binary_child healthy_world "/w") = 0%Z
  ∧ outcome (exec healthy_world
               (C3Compiler.sanity_check native_c3c "/w" some_external_flags)) = Ok tt
  ∧ trace (exec healthy_world
             (C3Compiler.sanity_check native_c3c "/w" some_external_flags))
    = [Wrote "/w/c3ctest.c3" C3Compiler.probe_source;
       Spawned ["c3c"; "-g"; "-lm"; "compile"; "c3ctest.c3"; "-o"; "/w/c3test/c3test"]
               "/w";
       Executed "/w/c3test/c3test"].
Proof.
  assert (Hx : is_cross native_c3c = false) by reflexivity.
  assert (Hc : returncode (probe_child healthy_world native_c3c "/w"
                             some_external_flags) = 0%Z) by reflexivity.
  assert (Hb : returncode (binary_child healthy_world "/w") = 0%Z) by reflexivity.
  split; [exact Hx|]. split; [exact Hc|]. split; [exact Hb|].
  destruct (sanity_check_native_passes native_c3c "/w" some_external_flags
              healthy_world Hx Hc Hb) as (Ho & _ & Ht).
  split; [exact Ho | exact Ht].
Defined.

(** X2: a native toolchain whose probe compiles but whose binary exits
    with a nonzero status fails the check with the "not runnable" message
    built from the backend's display name; the binary was run once. *)
Theorem sanity_check_binary_not_runnable (self : compiler) (work_dir : string)
    (environment : Environment) (w : world) :
  is_cross self = false →
  returncode (probe_child w self work_dir environment) = 0%Z →
  returncode (binary_child w work_dir) ≠ 0%Z →
  outcome (exec w (C3Compiler.sanity_check self work_dir environment))
    = Raise (EnvironmentException
               ("Executables created by C3 compiler " +:+ name_string self
                +:+ " are not runnable."))
  ∧ execute_calls (exec w (C3Compiler.sanity_check self work_dir environment)) = 1.
Proof.
  intros Hx Hc Hb. rewrite sanity_check_runs. cbv zeta.
  apply Z.eqb_eq in Hc. apply Z.eqb_neq in Hb. rewrite Hc, Hx, Hb. cbn [negb].
  by split.
Qed.

Lemma sanity_check_binary_not_runnable_witness :
  is_cross native_c3c = false
  ∧ returncode (probe_child unrunnable_world native_c3c "/w" no_external_flags) = 0%Z
  ∧ returncode (binary_child unrunnable_world "/w") ≠ 0%Z
  ∧ outcome (exec unrunnable_world
               (C3Compiler.sanity_check native_c3c "/w" no_external_flags))
    = Raise (EnvironmentException
               "Executables created by C3 compiler c3c are not runnable.").
Proof.
  assert (Hx : is_cross native_c3c = false) by reflexivity.
  assert (Hc : returncode (probe_child unrunnable_world native_c3c "/w"
                             no_external_flags) = 0%Z) by reflexivity.
  assert (Hb : returncode (binary_child unrunnable_world "/w") ≠ 0%Z)
    by (vm_compute; discriminate).
  split; [exact Hx|]. split; [exact Hc|]. split; [exact Hb|].
  exact (proj1 (sanity_check_binary_not_runnable native_c3c "/w" no_external_flags
                  unrunnable_world Hx Hc Hb)).
Defined.

(** X3: the check returns normally exactly when the compile step exits
    with status zero and, for a native toolchain, the binary does too. *)
Theorem sanity_check_passes_iff (self : compiler) (work_dir : string)
    (environment : Environment) (w : world) :
  outcome (exec w (C3Compiler.sanity_check self work_dir environment)) = Ok tt
  ↔ returncode (probe_child w self work_dir environment) = 0%Z
    ∧ (is_cross self = true ∨ returncode (binary_child w work_dir) = 0%Z).
Proof.
  rewrite sanity_check_runs. cbv zeta.
  destruct (Z.eqb_spec (returncode (probe_child w self work_dir environment)) 0)
    as [Hc|Hc]; cbn [negb outcome].
  - destruct (is_cross self); cbn [outcome]; [intuition congruence|].
    destruct (Z.eqb_spec (returncode (binary_child w work_dir)) 0) as [Hb|Hb];
      cbn [negb outcome]; intuition congruence.
  - intuition congruence.
Qed.



Lemma probe_calls_prefix (self : compiler) (work_dir : string)
    (environment : Environment) (w : os_world) :
  os_trace (probe_run w self work_dir environment)
    `prefix_of` probe_calls self work_dir environment.
Proof.
  rewrite sanity_check_os_runs. unfold probe_calls.
  destruct (os_write w _ _); [by eexists|].
  destruct (os_spawn w _ _) as [e|c]; [by eexists|].
  destruct (negb _); [by eexists|]. destruct (is_cross self); [by eexists|].
  destruct (os_execute w _); by eexists.
Qed.

(** X5: the calls of a run are, in this order, the write of the probe
    source, one compile in the work directory (the source passed by its
    bare file name, the output path after '-o') and one run of the output
    path, or a beginning of that sequence. When the write is refused
    nothing else is attempted and the error escapes; when the compiler
    cannot be started the write is the only call and the error escapes;
    when it is started, the write and the compile are the first two
    calls. *)
Theorem sanity_check_call_order (self : compiler) (work_dir : string)
    (environment : Environment) (w : os_world) :
  os_trace (probe_run w self work_dir environment)
    `prefix_of`
    [Wrote (posixpath.join work_dir ["c3ctest.c3"])
           ("fn int main(){return 0;}" +:+ String "010"%char "");
     Spawned (exelist self ++ get_external_args environment
              ++ (if is_cross self then ["compile-only"]
                  else get_external_link_args environment)
              ++ ["compile"; "c3ctest.c3"; "-o";
                  posixpath.join work_dir ["c3test"; "c3test"]])
             work_dir;
     Executed (posixpath.join work_dir ["c3test"; "c3test"])]
  ∧ (∀ e,
       os_write w (source_path work_dir) C3Compiler.probe_source = Some e →
       os_trace (probe_run w self work_dir environment) = []
       ∧ os_ending (probe_run w self work_dir environment) = Escapes e)
  ∧ (os_write w (source_path work_dir) C3Compiler.probe_source = None →
     (∀ e,
        os_spawn w (probe_argv self work_dir environment) work_dir = inl e →
        length (os_trace (probe_run w self work_dir environment)) = 1
        ∧ os_ending (probe_run w self work_dir environment) = Escapes e)
     ∧ (∀ c,
          os_spawn w (probe_argv self work_dir environment) work_dir = inr c →
          2 ≤ length (os_trace (probe_run w self work_dir environment)))).
Proof.
  split.
  - pose proof (probe_calls_prefix self work_dir environment w) as H.
    unfold probe_calls, probe_argv in H. by rewrite <- !app_assoc in H.
  - rewrite sanity_check_os_runs. split.
    + by intros e ->.
    + intros ->. split.
      * by intros e ->.
      * intros c ->. destruct (negb _); [done|]. destruct (is_cross self); [done|].
        destruct (os_execute w _); cbn; lia.
Qed.

Lemma sanity_check_call_order_witness :
  os_write no_work_dir (source_path "/gone") C3Compiler.probe_source
    = Some (OSError "FileNotFoundError: No such file or directory")
  ∧ os_write no_compiler (source_path "/w") C3Compiler.probe_source = None
  ∧ os_spawn no_compiler (probe_argv native_c3c "/w" no_external_flags) "/w"
    = inl (OSError "FileNotFoundError: No such file or directory: 'c3c'")
  ∧ os_trace (probe_run no_work_dir native_c3c "/gone" no_external_flags) = []
  ∧ os_ending (probe_run no_compiler native_c3c "/w" no_external_flags)
    = Escapes (OSError "FileNotFoundError: No such file or directory: 'c3c'").
Proof.
  assert (H1 : os_write no_work_dir (source_path "/gone") C3Compiler.probe_source
               = Some (OSError "FileNotFoundError: No such file or directory"))
    by reflexivity.
  assert (H2 : os_write no_compiler (source_path "/w") C3Compiler.probe_source = None)
    by reflexivity.
  assert (H3 : os_spawn no_compiler (probe_argv native_c3c "/w" no_external_flags) "/w"
               = inl (OSError "FileNotFoundError: No such file or directory: 'c3c'"))
    by reflexivity.
  split; [exact H1|]. split; [exact H2|]. split; [exact H3|]. split.
  - exact (proj1 (proj1 (proj2 (sanity_check_call_order native_c3c "/gone"
                                  no_external_flags no_work_dir)) _ H1)).
  - exact (proj2 (proj1 (proj2 (proj2 (sanity_check_call_order native_c3c "/w"
                                         no_external_flags no_compiler)) H2) _ H3)).
Defined.

(** ** The path rewriter, flag by flag *)

Lemma compute_parameters_getitem (r : loc) (build_dir : string) (σ : store)
    (l : list string) (idx : nat) (i : string) :
  σ !! r = Some l → l !! idx = Some i →
  getitem r idx (C3Compiler.compute_parameters_with_absolute_paths r build_dir σ).2
  = Some (if C3Compiler.is_path_flag i
          then C3Compiler.absolute_flag build_dir i else i).
Proof.
  intros Hσ Hidx. rewrite (compute_parameters_store build_dir r l σ Hσ). cbn [snd].
  unfold getitem. rewrite lookup_insert_eq. cbn [mbind option_bind].
  by rewrite rewritten_lookup, Hidx.
Qed.

Lemma endswith_sep_append s t :
  t ≠ "" → PyStr.endswith_sep (s +:+ t) = PyStr.endswith_sep t.
Proof.
  intros Ht. induction s as [|c s IH]; [done|].
  rewrite append_cons. cbn [PyStr.endswith_sep]. rewrite IH.
  destruct (s +:+ t) eqn:E; [|done]. by destruct s, t.
Qed.

Lemma sep_free_endswith c : c ≠ "" → PyStr.sep_free c = true → PyStr.endswith_sep c = false.
Proof.
  induction c as [|a c IH]; [done|]. intros _ Hfree. cbn in Hfree.
  apply andb_true_iff in Hfree as [Ha Hc]. apply negb_true_iff in Ha.
  cbn [PyStr.endswith_sep]. destruct c as [|b c]; [done|]. by apply IH.
Qed.

Lemma join_sep_endswith k nc :
  normal k nc → nc ≠ [] →
  PyStr.join_sep nc ≠ "" ∧ PyStr.endswith_sep (PyStr.join_sep nc) = false.
Proof.
  intros [Hall _] Hne. induction Hall as [|c cs (Hc & _ & Hfree) Hcs IH]; [done|].
  destruct cs as [|d ds].
  - split; [done|]. by apply sep_free_endswith.
  - destruct IH as [IHne IHend]; [done|]. rewrite join_sep_cons. split.
    + by destruct c.
    + rewrite endswith_sep_append by done. cbn [PyStr.endswith_sep].
      by destruct (PyStr.join_sep (d :: ds)).
Qed.

(** A normalized path ends with the separator only when it is the root. *)
Lemma normpath_endswith_sep p :
  PyStr.endswith_sep (posixpath.normpath p) = true →
  posixpath.normpath p = "/" ∨ posixpath.normpath p = "//".
Proof.
  destruct (decide (p = "")) as [->|Hne]; [done|].
  rewrite (normpath_assemble p Hne).
  pose proof (normpath_normal p) as Hn. pose proof (initial_slashes_le p) as Hk.
  set (k := posixpath.initial_slashes p) in *.
  set (nc := foldl (posixpath.normpath_step k) [] (PyStr.split_sep p)) in *.
  destruct nc as [|c cs].
  - destruct k as [|[|[|k]]]; [done|by left|by right|lia].
  - destruct (join_sep_endswith k (c :: cs) Hn) as [Hj He]; [done|].
    unfold assemble. intros H. exfalso. revert H.
    destruct k as [|[|[|k]]]; [| | |lia]; cbn [Nat.eqb posixpath.seps].
    + apply String.eqb_neq in Hj. rewrite Hj, He. done.
    + rewrite append_cons, append_empty_l. cbn [String.eqb].
      change (String PyStr.sep ?s) with ("/" +:+ s).
      rewrite endswith_sep_append, He; done.
    + rewrite !append_cons, append_empty_l. cbn [String.eqb].
      change (String PyStr.sep (String PyStr.sep ?s)) with ("//" +:+ s).
      rewrite endswith_sep_append, He; done.
Qed.

(** X6: the call never changes the first two characters of a flag, so a
    flag is path-bearing after the call exactly when it was before. *)
Theorem compute_parameters_keeps_prefix (r : loc) (build_dir : string)
    (σ : store) (l : list string) (idx : nat) (i : string) :
  σ !! r = Some l → l !! idx = Some i →
  ∃ i',
    getitem r idx (C3Compiler.compute_parameters_with_absolute_paths r build_dir σ).2
    = Some i'
    ∧ PyStr.slice_to 2 i' = PyStr.slice_to 2 i
    ∧ C3Compiler.is_path_flag i' = C3Compiler.is_path_flag i.
Proof.
  intros Hσ Hidx. rewrite (compute_parameters_getitem r build_dir σ l idx i Hσ Hidx).
  eexists. split; [reflexivity|].
  destruct (C3Compiler.is_path_flag i) eqn:Hi; [|done].
  destruct (absolute_flag_shape build_dir i Hi) as (pre & Hpre & Hto & Heq & Hflag & _).
  split; [|done]. rewrite Heq, Hto. by destruct Hpre as [-> | ->].
Qed.

Lemma compute_parameters_keeps_prefix_witness :
  caller_store !! 0 = Some ["-Ilib"; "-Wall"]
  ∧ ["-Ilib"; "-Wall"] !! 0 = Some "-Ilib"
  ∧ ∃ i',
      getitem 0 0
        (C3Compiler.compute_parameters_with_absolute_paths 0 "/build" caller_store).2
      = Some i'
      ∧ PyStr.slice_to 2 i' = PyStr.slice_to 2 "-Ilib".
Proof.
  assert (Hσ : caller_store !! 0 = Some ["-Ilib"; "-Wall"]) by reflexivity.
  assert (Hidx : ["-Ilib"; "-Wall"] !! 0 = Some "-Ilib") by reflexivity.
  split; [exact Hσ|]. split; [exact Hidx|].
  destruct (compute_parameters_keeps_prefix 0 "/build" caller_store _ 0 _ Hσ Hidx)
    as (i' & Hi' & Hto & _).
  exists i'. split; [exact Hi' | exact Hto].
Defined.

(** X7: whatever the build directory, the path of a rewritten flag is
    normalized: it is not empty, normalizing it again gives it back, and
    it ends with a separator only when it is '/' or '//'. *)
Theorem compute_parameters_paths_normalized (r : loc) (build_dir : string)
    (σ : store) (l : list string) (idx : nat) (i : string) :
  σ !! r = Some l → l !! idx = Some i → C3Compiler.is_path_flag i = true →
  ∃ i',
    getitem r idx (C3Compiler.compute_parameters_with_absolute_paths r build_dir σ).2
    = Some i'
    ∧ PyStr.slice_from 2 i' ≠ ""
    ∧ posixpath.normpath (PyStr.slice_from 2 i') = PyStr.slice_from 2 i'
    ∧ (PyStr.endswith_sep (PyStr.slice_from 2 i') = true →
       PyStr.slice_from 2 i' = "/" ∨ PyStr.slice_from 2 i' = "//").
Proof.
  intros Hσ Hidx Hi.
  rewrite (compute_parameters_getitem r build_dir σ l idx i Hσ Hidx), Hi.
  eexists. split; [reflexivity|].
  destruct (absolute_flag_shape build_dir i Hi) as (_ & _ & _ & _ & _ & ->).
  split; [apply normpath_not_empty|]. split; [apply normpath_idempotent|].
  apply normpath_endswith_sep.
Qed.

Lemma compute_parameters_paths_normalized_witness :
  ({[ 0 := ["-L../lib//x86/./"] ]} : store) !! 0 = Some ["-L../lib//x86/./"]
  ∧ ["-L../lib//x86/./"] !! 0 = Some "-L../lib//x86/./"
  ∧ C3Compiler.is_path_flag "-L../lib//x86/./" = true
  ∧ ∃ i',
      getitem 0 0
        (C3Compiler.compute_parameters_with_absolute_paths 0 "/build/sub"
           {[ 0 := ["-L../lib//x86/./"] ]}).2
      = Some i'
      ∧ posixpath.normpath (PyStr.slice_from 2 i') = PyStr.slice_from 2 i'.
Proof.
  assert (Hσ : ({[ 0 := ["-L../lib//x86/./"] ]} : store) !! 0
               = Some ["-L../lib//x86/./"]) by reflexivity.
  assert (Hidx : ["-L../lib//x86/./"] !! 0 = Some "-L../lib//x86/./") by reflexivity.
  assert (Hi : C3Compiler.is_path_flag "-L../lib//x86/./" = true) by reflexivity.
  split; [exact Hσ|]. split; [exact Hidx|]. split; [exact Hi|].
  destruct (compute_parameters_paths_normalized 0 "/build/sub" _ _ 0 _ Hσ Hidx Hi)
    as (i' & Hi' & _ & Hn & _).
  exists i'. split; [exact Hi' | exact Hn].
Defined.

(** X8: under an absolute build directory the path of every rewritten
    flag is absolute. *)
Theorem compute_parameters_paths_absolute (r : loc) (build_dir : string)
    (σ : store) (l : list string) (idx : nat) (i : string) :
  PyStr.startswith "/" build_dir = true →
  σ !! r = Some l → l !! idx = Some i → C3Compiler.is_path_flag i = true →
  ∃ i',
    getitem r idx (C3Compiler.compute_parameters_with_absolute_paths r build_dir σ).2
    = Some i'
    ∧ PyStr.startswith "/" (PyStr.slice_from 2 i') = true.
Proof.
  intros Habs Hσ Hidx Hi.
  rewrite (compute_parameters_getitem r build_dir σ l idx i Hσ Hidx), Hi.
  eexists. split; [reflexivity|].
  destruct (absolute_flag_shape build_dir i Hi) as (_ & _ & _ & _ & _ & ->).
  by apply normpath_absolute, join_absolute_base.
Qed.

Lemma compute_parameters_paths_absolute_witness :
  PyStr.startswith "/" "/build" = true
  ∧ caller_store !! 0 = Some ["-Ilib"; "-Wall"]
  ∧ ["-Ilib"; "-Wall"] !! 0 = Some "-Ilib"
  ∧ C3Compiler.is_path_flag "-Ilib" = true
  ∧ ∃ i',
      getitem 0 0
        (C3Compiler.compute_parameters_with_absolute_paths 0 "/build" caller_store).2
      = Some i'
      ∧ PyStr.startswith "/" (PyStr.slice_from 2 i') = true.
Proof.
  assert (Ha : PyStr.startswith "/" "/build" = true) by reflexivity.
  assert (Hσ : caller_store !! 0 = Some ["-Ilib"; "-Wall"]) by reflexivity.
  assert (Hidx : ["-Ilib"; "-Wall"] !! 0 = Some "-Ilib") by reflexivity.
  assert (Hi : C3Compiler.is_path_flag "-Ilib" = true) by reflexivity.
  split; [exact Ha|]. split; [exact Hσ|]. split; [exact Hidx|]. split; [exact Hi|].
  exact (compute_parameters_paths_absolute 0 "/build" caller_store _ 0 _ Ha Hσ Hidx Hi).
Defined.

(** X9: a flag whose path is already absolute does not depend on the
    build directory: it becomes its prefix followed by its own path,
    normalized. *)
Theorem compute_parameters_absolute_flag (r : loc) (build_dir : string)
    (σ : store) (l : list string) (idx : nat) (i : string) :
  σ !! r = Some l → l !! idx = Some i → C3Compiler.is_path_flag i = true →
  PyStr.startswith "/" (PyStr.slice_from 2 i) = true →
  getitem r idx (C3Compiler.compute_parameters_with_absolute_paths r build_dir σ).2
  = Some (PyStr.slice_to 2 i +:+ posixpath.normpath (PyStr.slice_from 2 i)).
Proof.
  intros Hσ Hidx Hi Habs.
  rewrite (compute_parameters_getitem r build_dir σ l idx i Hσ Hidx), Hi.
  unfold C3Compiler.absolute_flag. by rewrite join_absolute_component.
Qed.

Lemma compute_parameters_absolute_flag_witness :
  ({[ 0 := ["-I/usr/local/../include"] ]} : store) !! 0
    = Some ["-I/usr/local/../include"]
  ∧ ["-I/usr/local/../include"] !! 0 = Some "-I/usr/local/../include"
  ∧ C3Compiler.is_path_flag "-I/usr/local/../include" = true
  ∧ PyStr.startswith "/" (PyStr.slice_from 2 "-I/usr/local/../include") = true
  ∧ getitem 0 0
      (C3Compiler.compute_parameters_with_absolute_paths 0 "/build"
         {[ 0 := ["-I/usr/local/../include"] ]}).2
    = Some (PyStr.slice_to 2 "-I/usr/local/../include"
            +:+ posixpath.normpath (PyStr.slice_from 2 "-I/usr/local/../include")).
Proof.
  assert (Hσ : ({[ 0 := ["-I/usr/local/../include"] ]} : store) !! 0
               = Some ["-I/usr/local/../include"]) by reflexivity.
  assert (Hidx : ["-I/usr/local/../include"] !! 0 = Some "-I/usr/local/../include")
    by reflexivity.
  assert (Hi : C3Compiler.is_path_flag "-I/usr/local/../include" = true)
    by reflexivity.
  assert (Ha : PyStr.startswith "/" (PyStr.slice_from 2 "-I/usr/local/../include")
               = true) by reflexivity.
  split; [exact Hσ|]. split; [exact Hidx|]. split; [exact Hi|]. split; [exact Ha|].
  exact (compute_parameters_absolute_flag 0 "/build" _ _ 0 _ Hσ Hidx Hi Ha).
Defined.

Lemma rewritten_no_path_flags build_dir l :
  no_path_flags l → rewritten build_dir l = l.
Proof.
  intros Hl. unfold rewritten. induction Hl as [|i l Hi _ IH]; [done|].
  rewrite fmap_cons, Hi. by f_equal.
Qed.

(** X10: a list none of whose elements begins with '-I' or '-L' (the
    empty list among them) comes back as it was, and so does the whole
    store. *)
Theorem compute_parameters_no_path_flags (r : loc) (build_dir : string)
    (σ : store) (l : list string) :
  σ !! r = Some l → no_path_flags l →
  C3Compiler.compute_parameters_with_absolute_paths r build_dir σ = (r, σ).
Proof.
  intros Hσ Hl. rewrite (compute_parameters_store build_dir r l σ Hσ).
  rewrite rewritten_no_path_flags by done. f_equal. by apply insert_id.
Qed.

Lemma compute_parameters_no_path_flags_witness :
  ({[ 0 := ["-o"; "a.out"; "--libdir"; "lib"] ]} : store) !! 0
    = Some ["-o"; "a.out"; "--libdir"; "lib"]
  ∧ no_path_flags ["-o"; "a.out"; "--libdir"; "lib"]
  ∧ C3Compiler.compute_parameters_with_absolute_paths 0 "/build"
      {[ 0 := ["-o"; "a.out"; "--libdir"; "lib"] ]}
    = (0, {[ 0 := ["-o"; "a.out"; "--libdir"; "lib"] ]}).
Proof.
  assert (Hσ : ({[ 0 := ["-o"; "a.out"; "--libdir"; "lib"] ]} : store) !! 0
               = Some ["-o"; "a.out"; "--libdir"; "lib"]) by reflexivity.
  assert (Hl : no_path_flags ["-o"; "a.out"; "--libdir"; "lib"])
    by (repeat constructor).
  split; [exact Hσ|]. split; [exact Hl|].
  exact (compute_parameters_no_path_flags 0 "/build" _ _ Hσ Hl).
Defined.

(** X11: rewriting a concatenation is rewriting its parts: the list left
    by a call on [l1 ++ l2] is the list left by a call on [l1] followed by
    the list left by a call on [l2]. *)
Theorem compute_parameters_concat (build_dir : string)
    (r r1 r2 : loc) (σ σ1 σ2 : store) (l1 l2 : list string) :
  σ !! r = Some (l1 ++ l2) → σ1 !! r1 = Some l1 → σ2 !! r2 = Some l2 →
  ∃ l1' l2',
    (C3Compiler.compute_parameters_with_absolute_paths r1 build_dir σ1).2 !! r1
    = Some l1'
    ∧ (C3Compiler.compute_parameters_with_absolute_paths r2 build_dir σ2).2 !! r2
      = Some l2'
    ∧ (C3Compiler.compute_parameters_with_absolute_paths r build_dir σ).2 !! r
      = Some (l1' ++ l2').
Proof.
  intros Hσ Hσ1 Hσ2.
  rewrite (compute_parameters_store build_dir r _ σ Hσ),
    (compute_parameters_store build_dir r1 _ σ1 Hσ1),
    (compute_parameters_store build_dir r2 _ σ2 Hσ2). cbn [snd].
  rewrite !lookup_insert_eq. do 2 eexists. split; [done|]. split; [done|].
  unfold rewritten. by rewrite fmap_app.
Qed.

Lemma compute_parameters_concat_witness :
  ({[ 0 := ["-Ia"] ++ ["-Lb"] ]} : store) !! 0 = Some (["-Ia"] ++ ["-Lb"])
  ∧ ({[ 1 := ["-Ia"] ]} : store) !! 1 = Some ["-Ia"]
  ∧ ({[ 2 := ["-Lb"] ]} : store) !! 2 = Some ["-Lb"]
  ∧ ∃ l1' l2',
      (C3Compiler.compute_parameters_with_absolute_paths 1 "/build"
         {[ 1 := ["-Ia"] ]}).2 !! 1 = Some l1'
      ∧ (C3Compiler.compute_parameters_with_absolute_paths 2 "/build"
           {[ 2 := ["-Lb"] ]}).2 !! 2 = Some l2'
      ∧ (C3Compiler.compute_parameters_with_absolute_paths 0 "/build"
           {[ 0 := ["-Ia"] ++ ["-Lb"] ]}).2 !! 0 = Some (l1' ++ l2').
Proof.
  assert (H0 : ({[ 0 := ["-Ia"] ++ ["-Lb"] ]} : store) !! 0
               = Some (["-Ia"] ++ ["-Lb"])) by reflexivity.
  assert (H1 : ({[ 1 := ["-Ia"] ]} : store) !! 1 = Some ["-Ia"]) by reflexivity.
  assert (H2 : ({[ 2 := ["-Lb"] ]} : store) !! 2 = Some ["-Lb"]) by reflexivity.
  split; [exact H0|]. split; [exact H1|]. split; [exact H2|].
  exact (compute_parameters_concat "/build" 0 1 2 _ _ _ _ _ H0 H1 H2).
Defined.

Lemma join_empty_base b : posixpath.join "" [b] = b.
Proof. cbn. unfold posixpath.join_step. cbn [String.eqb]. by rewrite orb_true_r. Qed.

Lemma join_trailing_sep a b :
  a ≠ "" → PyStr.endswith_sep a = false →
  posixpath.join (a +:+ "/") [b] = posixpath.join a [b].
Proof.
  intros Hne Hend. cbn. unfold posixpath.join_step.
  destruct (PyStr.startswith "/" b); [done|]. cbn [orb].
  assert (a +:+ "/" ≠ "") as Hne' by (by destruct a).
  apply String.eqb_neq in Hne, Hne'. rewrite Hne, Hne', Hend.
  rewrite endswith_sep_append by done. cbn [PyStr.endswith_sep Ascii.eqb Bool.eqb].
  cbn. by rewrite append_assoc.
Qed.

(** X12: with the empty build directory a path flag becomes its prefix
    followed by its own path, normalized, and calling the method again on
    the result changes nothing. *)
Theorem compute_parameters_empty_build_dir (r : loc) (σ : store) (l : list string) :
  σ !! r = Some l →
  (∀ idx i, l !! idx = Some i → C3Compiler.is_path_flag i = true →
     getitem r idx (C3Compiler.compute_parameters_with_absolute_paths r "" σ).2
     = Some (PyStr.slice_to 2 i +:+ posixpath.normpath (PyStr.slice_from 2 i)))
  ∧ C3Compiler.compute_parameters_with_absolute_paths
      (C3Compiler.compute_parameters_with_absolute_paths r "" σ).1 ""
      (C3Compiler.compute_parameters_with_absolute_paths r "" σ).2
    = C3Compiler.compute_parameters_with_absolute_paths r "" σ.
Proof.
  intros Hσ. split.
  - intros idx i Hidx Hi.
    rewrite (compute_parameters_getitem r "" σ l idx i Hσ Hidx), Hi.
    unfold C3Compiler.absolute_flag. by rewrite join_empty_base.
  - rewrite (compute_parameters_store "" r l σ Hσ). cbn [fst snd].
    rewrite (compute_parameters_store "" r (rewritten "" l))
      by apply lookup_insert_eq.
    rewrite insert_insert_eq. do 2 f_equal.
    unfold rewritten. rewrite <- list_fmap_compose.
    apply list_fmap_ext. intros _ i _. cbn.
    destruct (C3Compiler.is_path_flag i) eqn:Hi; [|by rewrite Hi].
    destruct (absolute_flag_shape "" i Hi) as (pre & Hpre & _ & Heq & -> & Hfrom).
    unfold C3Compiler.absolute_flag at 1.
    rewrite Hfrom, !join_empty_base, normpath_idempotent.
    rewrite Heq, join_empty_base. by destruct Hpre as [-> | ->].
Qed.

Lemma compute_parameters_empty_build_dir_witness :
  ({[ 0 := ["-Ia/../b"] ]} : store) !! 0 = Some ["-Ia/../b"]
  ∧ C3Compiler.compute_parameters_with_absolute_paths
      (C3Compiler.compute_parameters_with_absolute_paths 0 ""
         {[ 0 := ["-Ia/../b"] ]}).1 ""
      (C3Compiler.compute_parameters_with_absolute_paths 0 ""
         {[ 0 := ["-Ia/../b"] ]}).2
    = C3Compiler.compute_parameters_with_absolute_paths 0 "" {[ 0 := ["-Ia/../b"] ]}.
Proof.
  assert (Hσ : ({[ 0 := ["-Ia/../b"] ]} : store) !! 0 = Some ["-Ia/../b"])
    by reflexivity.
  split; [exact Hσ|].
  exact (proj2 (compute_parameters_empty_build_dir 0 _ _ Hσ)).
Defined.

(** X13: a separator appended to a non-empty build directory that does
    not end with one makes no difference to the call. *)
Theorem compute_parameters_build_dir_trailing_sep (r : loc) (build_dir : string)
    (σ : store) :
  build_dir ≠ "" → PyStr.endswith_sep build_dir = false →
  C3Compiler.compute_parameters_with_absolute_paths r (build_dir +:+ "/") σ
  = C3Compiler.compute_parameters_with_absolute_paths r build_dir σ.
Proof.
  intros Hne Hend. destruct (σ !! r) as [l|] eqn:Hσ.
  - rewrite !(compute_parameters_store _ r l σ Hσ). do 2 f_equal.
    unfold rewritten. apply list_fmap_ext. intros _ i _.
    unfold C3Compiler.absolute_flag. by rewrite join_trailing_sep.
  - unfold C3Compiler.compute_parameters_with_absolute_paths, list_len.
    by rewrite Hσ.
Qed.

Lemma compute_parameters_build_dir_trailing_sep_witness :
  "/build" ≠ ""
  ∧ PyStr.endswith_sep "/build" = false
  ∧ C3Compiler.compute_parameters_with_absolute_paths 0 ("/build" +:+ "/") caller_store
    = C3Compiler.compute_parameters_with_absolute_paths 0 "/build" caller_store.
Proof.
  assert (Hne : "/build" ≠ "") by discriminate.
  assert (Hend : PyStr.endswith_sep "/build" = false) by reflexivity.
  split; [exact Hne|]. split; [exact Hend|].
  exact (compute_parameters_build_dir_trailing_sep 0 "/build" caller_store Hne Hend).
Defined.

Lemma normpath_absolute_components p c :
  PyStr.startswith "/" p = true → c ∈ PyStr.split_sep (posixpath.normpath p) →
  c ≠ ".." ∧ c ≠ ".".
Proof.
  intros Habs Hc. assert (p ≠ "") as Hne by (by intros ->).
  rewrite (normpath_assemble p Hne) in Hc.
  pose proof (normpath_normal p) as Hn.
  assert (posixpath.initial_slashes p = 1 ∨ posixpath.initial_slashes p = 2) as Hk.
  { unfold posixpath.initial_slashes. rewrite Habs. destruct (_ && _); auto. }
  set (k := posixpath.initial_slashes p) in *.
  set (nc := foldl (posixpath.normpath_step k) [] (PyStr.split_sep p)) in *.
  assert (c = "" ∨ c ∈ nc) as [->|Hin]; [|done|].
  { unfold assemble in Hc.
    assert (PyStr.split_sep (PyStr.join_sep nc) = [""] ∨
            PyStr.split_sep (PyStr.join_sep nc) = nc) as Hsplit.
    { destruct nc as [|d ds]; [by left|right].
      apply split_join_sep; [done|]. by apply (normal_sep_free k). }
    destruct Hk as [Hk|Hk]; rewrite Hk in Hc; cbn [Nat.eqb posixpath.seps] in Hc;
      rewrite !append_cons, append_empty_l in Hc; cbn [String.eqb] in Hc;
      rewrite !split_sep_sep in Hc;
      repeat (apply elem_of_cons in Hc as [->|Hc]; [by left|]);
      destruct Hsplit as [Hs|Hs]; rewrite Hs in Hc; auto;
      apply list_elem_of_singleton in Hc; auto. }
  destruct Hn as [Hall Hshape]. split.
  - intros ->. apply list_elem_of_split in Hin as (pre & post & Heq).
    destruct (Hshape pre post Heq) as [Hk0 _]. lia.
  - rewrite Forall_forall in Hall. by destruct (Hall c Hin) as (_ & ? & _).
Qed.

(** X14: under an absolute build directory no component of a rewritten
    path is '.' or '..': the rewritten path cannot climb out of the root. *)
Theorem compute_parameters_no_dotdot (r : loc) (build_dir : string)
    (σ : store) (l : list string) (idx : nat) (i : string) :
  PyStr.startswith "/" build_dir = true →
  σ !! r = Some l → l !! idx = Some i → C3Compiler.is_path_flag i = true →
  ∃ i',
    getitem r idx (C3Compiler.compute_parameters_with_absolute_paths r build_dir σ).2
    = Some i'
    ∧ ∀ c, c ∈ PyStr.split_sep (PyStr.slice_from 2 i') → c ≠ ".." ∧ c ≠ ".".
Proof.
  intros Habs Hσ Hidx Hi.
  rewrite (compute_parameters_getitem r build_dir σ l idx i Hσ Hidx), Hi.
  eexists. split; [reflexivity|]. intros c.
  destruct (absolute_flag_shape build_dir i Hi) as (_ & _ & _ & _ & _ & ->).
  apply normpath_absolute_components. by apply join_absolute_base.
Qed.

Lemma compute_parameters_no_dotdot_witness :
  PyStr.startswith "/" "/build" = true
  ∧ ({[ 0 := ["-I../../../etc"] ]} : store) !! 0 = Some ["-I../../../etc"]
  ∧ ["-I../../../etc"] !! 0 = Some "-I../../../etc"
  ∧ C3Compiler.is_path_flag "-I../../../etc" = true
  ∧ ∃ i',
      getitem 0 0
        (C3Compiler.compute_parameters_with_absolute_paths 0 "/build"
           {[ 0 := ["-I../../../etc"] ]}).2
      = Some i'
      ∧ ∀ c, c ∈ PyStr.split_sep (PyStr.slice_from 2 i') → c ≠ ".." ∧ c ≠ ".".
Proof.
  assert (Ha : PyStr.startswith "/" "/build" = true) by reflexivity.
  assert (Hσ : ({[ 0 := ["-I../../../etc"] ]} : store) !! 0 = Some ["-I../../../etc"])
    by reflexivity.
  assert (Hidx : ["-I../../../etc"] !! 0 = Some "-I../../../etc") by reflexivity.
  assert (Hi : C3Compiler.is_path_flag "-I../../../etc" = true) by reflexivity.
  split; [exact Ha|]. split; [exact Hσ|]. split; [exact Hidx|]. split; [exact Hi|].
  exact (compute_parameters_no_dotdot 0 "/build" _ _ 0 _ Ha Hσ Hidx Hi).
Defined.

(** ** The flag table and the rewriter *)

Lemma get_optimization_args_item level flags :
  C3Compiler.get_optimization_args level = Ok flags →
  (level, flags) ∈ c3_optimization_items.
Proof.
  unfold C3Compiler.get_optimization_args, dict_subscript.
  destruct (c3_optimization_args !! level) as [v|] eqn:E; [|done].
  intros [= <-]. by apply elem_of_list_to_map_2 in E.
Qed.

Ltac each_item H :=
  unfold c3_optimization_items in H;
  repeat (apply elem_of_cons in H as [H|H]; [simplify_eq|]);
  [..|by apply elem_of_nil in H].

(** X15: every level other than 'plain' that the table knows yields
    exactly one flag, '-O' followed by the level itself. *)
Theorem get_optimization_args_dash_O (level : string) (flags : list string) :
  C3Compiler.get_optimization_args level = Ok flags → level ≠ "plain" →
  flags = ["-O" +:+ level].
Proof.
  intros H Hne. apply get_optimization_args_item in H. each_item H; done.
Qed.

Lemma get_optimization_args_dash_O_witness :
  C3Compiler.get_optimization_args "s" = Ok ["-Os"]
  ∧ "s" ≠ "plain"
  ∧ ["-Os"] = ["-O" +:+ "s"].
Proof.
  assert (H : C3Compiler.get_optimization_args "s" = Ok ["-Os"])
    by (vm_compute; reflexivity).
  assert (Hne : "s" ≠ "plain") by discriminate.
  split; [exact H|]. split; [exact Hne|].
  exact (get_optimization_args_dash_O "s" ["-Os"] H Hne).
Defined.

(** X16: two levels with the same flag sequence are the same level. *)
Theorem get_optimization_args_injective (level1 level2 : string)
    (flags : list string) :
  C3Compiler.get_optimization_args level1 = Ok flags →
  C3Compiler.get_optimization_args level2 = Ok flags →
  level1 = level2.
Proof.
  intros H1 H2. apply get_optimization_args_item in H1, H2.
  each_item H1; each_item H2; done.
Qed.

Lemma get_optimization_args_injective_witness :
  C3Compiler.get_optimization_args "z" = Ok ["-Oz"]
  ∧ "z" = "z".
Proof.
  assert (H : C3Compiler.get_optimization_args "z" = Ok ["-Oz"])
    by (vm_compute; reflexivity).
  split; [exact H|].
  exact (get_optimization_args_injective "z" "z" ["-Oz"] H H).
Defined.

(** X17: the flags of an optimization level are never path flags: a list
    holding them goes through the path rewriter unchanged, whatever the
    build directory. *)
Theorem optimization_args_not_rewritten (level : string) (flags : list string)
    (r : loc) (build_dir : string) (σ : store) :
  C3Compiler.get_optimization_args level = Ok flags →
  σ !! r = Some flags →
  C3Compiler.compute_parameters_with_absolute_paths r build_dir σ = (r, σ).
Proof.
  intros H Hσ. rewrite (compute_parameters_store build_dir r flags σ Hσ).
  rewrite rewritten_no_path_flags; [f_equal; by apply insert_id|].
  apply get_optimization_args_item in H. each_item H; by repeat constructor.
Qed.

Lemma optimization_args_not_rewritten_witness :
  C3Compiler.get_optimization_args "3" = Ok ["-O3"]
  ∧ ({[ 0 := ["-O3"] ]} : store) !! 0 = Some ["-O3"]
  ∧ C3Compiler.compute_parameters_with_absolute_paths 0 "/build" {[ 0 := ["-O3"] ]}
    = (0, {[ 0 := ["-O3"] ]}).
Proof.
  assert (H : C3Compiler.get_optimization_args "3" = Ok ["-O3"])
    by (vm_compute; reflexivity).
  assert (Hσ : ({[ 0 := ["-O3"] ]} : store) !! 0 = Some ["-O3"]) by reflexivity.
  split; [exact H|]. split; [exact Hσ|].
  exact (optimization_args_not_rewritten "3" ["-O3"] 0 "/build" _ H Hσ).
Defined.

(** ** Stripping white space *)

Section Strip.
Implicit Types a b p s : text.

Lemma ends_space_cons c d s : ends_space (c :: d :: s) = ends_space (d :: s).
Proof. reflexivity. Qed.

Lemma lstrip_all_space a s : all_space a = true → lstrip (a ++ s) = lstrip s.
Proof.
  induction a as [|c a IH]; [done|]. cbn [all_space forallb]. intros H.
  apply andb_true_iff in H as [Hc Ha]. cbn [app lstrip]. rewrite Hc. by apply IH.
Qed.

Lemma lstrip_clean s : starts_space s = false → lstrip s = s.
Proof. destruct s as [|c s]; [done|]. cbn. by intros ->. Qed.

Lemma lstrip_starts s : starts_space (lstrip s) = false.
Proof.
  induction s as [|c s IH]; [done|]. cbn [lstrip].
  destruct (is_space c) eqn:Hc; [done|]. by cbn.
Qed.

Lemma lstrip_split s : ∃ a, s = a ++ lstrip s ∧ all_space a = true.
Proof.
  induction s as [|c s (a & IH & Ha)]; [by exists []|]. cbn [lstrip].
  destruct (is_space c) eqn:Hc.
  - exists (c :: a). cbn [app all_space forallb]. rewrite <- IH, Hc. done.
  - by exists [].
Qed.

Lemma lstrip_spaces b : all_space b = true → lstrip b = [].
Proof.
  induction b as [|c b IH]; [done|]. cbn [all_space forallb lstrip]. intros H.
  apply andb_true_iff in H as [Hc Hb]. rewrite Hc. by apply IH.
Qed.

Lemma rstrip_all_space b : all_space b = true → rstrip b = [].
Proof.
  induction b as [|c b IH]; [done|]. cbn [all_space forallb]. intros H.
  apply andb_true_iff in H as [Hc Hb]. cbn [rstrip]. by rewrite IH, Hc.
Qed.

Lemma rstrip_append p b : all_space b = true → rstrip (p ++ b) = rstrip p.
Proof.
  intros Hb. induction p as [|c p IH]; [by apply rstrip_all_space|].
  cbn [app rstrip]. by rewrite IH.
Qed.

Lemma rstrip_clean p : ends_space p = false → rstrip p = p.
Proof.
  induction p as [|c p IH]; [done|]. destruct p as [|d p].
  - cbn. by intros ->.
  - rewrite ends_space_cons. intros H. cbn [rstrip] in *. by rewrite IH.
Qed.

Lemma rstrip_ends s : ends_space (rstrip s) = false.
Proof.
  induction s as [|c s IH]; [done|]. cbn [rstrip].
  destruct (rstrip s) as [|d t]; [|by rewrite ends_space_cons].
  destruct (is_space c) eqn:Hc; [done|]. by cbn.
Qed.

Lemma rstrip_starts s : starts_space s = false → starts_space (rstrip s) = false.
Proof.
  destruct s as [|c s]; [done|]. cbn [starts_space rstrip]. intros Hc.
  rewrite Hc. by destruct (rstrip s).
Qed.

Lemma rstrip_split s : ∃ b, s = rstrip s ++ b ∧ all_space b = true.
Proof.
  induction s as [|c s (b & IH & Hb)]; [by exists []|]. cbn [rstrip].
  destruct (rstrip s) as [|d t] eqn:E.
  - cbn [app] in IH. subst b. destruct (is_space c) eqn:Hc.
    + exists (c :: s). split; [done|]. cbn [all_space forallb]. by rewrite Hc.
    + by exists s.
  - exists b. split; [|done]. cbn [app]. f_equal. exact IH.
Qed.

(** [strip] takes a clean core out of any white space around it. *)
Lemma strip_exact a p b :
  all_space a = true → all_space b = true →
  starts_space p = false → ends_space p = false →
  strip (a ++ p ++ b) = p.
Proof.
  intros Ha Hb Hs He. unfold strip. rewrite lstrip_all_space by done.
  destruct p as [|c p].
  - cbn [app]. by rewrite lstrip_spaces.
  - rewrite lstrip_clean by done. rewrite rstrip_append by done.
    by apply rstrip_clean.
Qed.

Lemma strip_split s :
  starts_space (strip s) = false ∧ ends_space (strip s) = false
  ∧ ∃ a b, s = a ++ strip s ++ b ∧ all_space a = true ∧ all_space b = true.
Proof.
  unfold strip. split; [apply rstrip_starts, lstrip_starts|].
  split; [apply rstrip_ends|].
  destruct (lstrip_split s) as (a & Hs & Ha).
  destruct (rstrip_split (lstrip s)) as (b & Hl & Hb).
  exists a, b. by rewrite <- Hl, <- Hs.
Qed.

End Strip.

(** ** The constructor *)

(** X18: [xcrun] is asked at most once, and only on macOS; the
    construction succeeds exactly when the machine is not macOS or the
    call returns its output; an error is logged exactly when, on macOS, the
    call ends with [CalledProcessError] or [FileNotFoundError]; any other
    exception of the call leaves the constructor as it is, nothing being
    logged. *)
Theorem init_asks_xcrun_on_darwin_only (super : compiler) (version : string)
    (is_darwin : bool) (check_output : list string → check_output_result) :
  calls (init super version is_darwin check_output)
    = (if is_darwin then [["xcrun"; "--show-sdk-path"]] else [])
  ∧ ((∃ obj, constructed (init super version is_darwin check_output) = inl obj)
     ↔ is_darwin = false ∨ ∃ out, check_output ["xcrun"; "--show-sdk-path"] = Output out)
  ∧ (errors_logged (init super version is_darwin check_output) ≠ []
     ↔ is_darwin = true
       ∧ ((∃ status out,
             check_output ["xcrun"; "--show-sdk-path"] = CalledProcessError status out)
          ∨ check_output ["xcrun"; "--show-sdk-path"] = FileNotFoundError))
  ∧ (∀ class,
       is_darwin = true →
       check_output ["xcrun"; "--show-sdk-path"] = OtherException class →
       constructed (init super version is_darwin check_output) = inr (Propagated class)
       ∧ errors_logged (init super version is_darwin check_output) = []).
Proof.
  unfold init, xcrun_argv. destruct is_darwin.
  - destruct (check_output _) as [out|st out| |class]; cbn; split_and!;
      try done; try (intros ? _ [= <-]; done);
      (split; [intros H|intros H]);
      repeat match goal with
             | H : _ ∧ _ |- _ => destruct H
             | H : _ ∨ _ |- _ => destruct H
             | H : ∃ _, _ |- _ => destruct H
             end; try done; eauto 6.
  - cbn. split_and!; try done; (split; [intros H|intros H]);
      repeat match goal with
             | H : _ ∧ _ |- _ => destruct H
             | H : _ ∨ _ |- _ => destruct H
             | H : ∃ _, _ |- _ => destruct H
             end; try done; eauto.
Qed.

(** X19: on macOS, when [xcrun] prints the SDK path with any white space
    before and after it (the usual newline after it, for one), the
    instance holds the path alone in [sdk_path], keeps the base object and
    the version, and nothing is logged. *)
Theorem init_sdk_path_exact (super : compiler) (version : string)
    (check_output : list string → check_output_result) (a p b : text) :
  check_output ["xcrun"; "--show-sdk-path"] = Output (a ++ p ++ b) →
  all_space a = true → all_space b = true →
  starts_space p = false → ends_space p = false →
  constructed (init super version true check_output)
    = inl (C3Instance super version (Some p))
  ∧ errors_logged (init super version true check_output) = [].
Proof.
  intros Hout Ha Hb Hs He. unfold init, xcrun_argv. rewrite Hout. cbn.
  by rewrite strip_exact.
Qed.

Lemma init_sdk_path_exact_witness :
  xcrun_prints_accented ["xcrun"; "--show-sdk-path"]
    = Output ([] ++ accented_sdk ++ [8195%N; 10%N])
  ∧ all_space [] = true
  ∧ all_space [8195%N; 10%N] = true
  ∧ starts_space accented_sdk = false
  ∧ ends_space accented_sdk = false
  ∧ constructed (init native_c3c "0.6.8" true xcrun_prints_accented)
    = inl (C3Instance native_c3c "0.6.8" (Some accented_sdk)).
Proof.
  assert (Ho : xcrun_prints_accented ["xcrun"; "--show-sdk-path"]
               = Output ([] ++ accented_sdk ++ [8195%N; 10%N])) by reflexivity.
  assert (Ha : all_space [] = true) by reflexivity.
  assert (Hb : all_space [8195%N; 10%N] = true) by reflexivity.
  assert (Hs : starts_space accented_sdk = false) by reflexivity.
  assert (He : ends_space accented_sdk = false) by reflexivity.
  split; [exact Ho|]. split; [exact Ha|]. split; [exact Hb|].
  split; [exact Hs|]. split; [exact He|].
  exact (proj1 (init_sdk_path_exact native_c3c "0.6.8" xcrun_prints_accented
                  [] accented_sdk [8195%N; 10%N] Ho Ha Hb Hs He)).
Defined.

(** X20: on macOS, whatever text [xcrun] prints, the stored [sdk_path]
    neither begins nor ends with white space, and the output is that path
    with nothing but white space before and after it. *)
Theorem init_sdk_path_stripped (super : compiler) (version : string)
    (check_output : list string → check_output_result) (out : text) :
  check_output ["xcrun"; "--show-sdk-path"] = Output out →
  ∃ sdk,
    constructed (init super version true check_output)
      = inl (C3Instance super version (Some sdk))
    ∧ starts_space sdk = false ∧ ends_space sdk = false
    ∧ ∃ a b, out = a ++ sdk ++ b ∧ all_space a = true ∧ all_space b = true.
Proof.
  intros Hout. unfold init, xcrun_argv. rewrite Hout. cbn.
  exists (strip out). split; [done|]. apply strip_split.
Qed.

Lemma init_sdk_path_stripped_witness :
  xcrun_prints_sdk ["xcrun"; "--show-sdk-path"] = Output (xcode_sdk ++ [10%N])
  ∧ ∃ sdk,
      constructed (init native_c3c "0.6.8" true xcrun_prints_sdk)
        = inl (C3Instance native_c3c "0.6.8" (Some sdk))
      ∧ starts_space sdk = false ∧ ends_space sdk = false.
Proof.
  assert (Ho : xcrun_prints_sdk ["xcrun"; "--show-sdk-path"]
               = Output (xcode_sdk ++ [10%N])) by reflexivity.
  split; [exact Ho|].
  destruct (init_sdk_path_stripped native_c3c "0.6.8" xcrun_prints_sdk _ Ho)
    as (sdk & Hc & Hs & He & _).
  exists sdk. split; [exact Hc|]. split; [exact Hs | exact He].
Defined.

(** X21: on macOS a failing [xcrun] aborts the construction with a
    [MesonException] that tells the two causes apart: a nonzero exit
    status gives the licence message and logs the child's collected output
    behind a fixed heading; a missing program gives the "could not detect"
    message and logs a fixed line. *)
Theorem init_xcrun_failures (super : compiler) (version : string)
    (check_output : list string → check_output_result) :
  (∀ status out,
     check_output ["xcrun"; "--show-sdk-path"] = CalledProcessError status out →
     constructed (init super version true check_output)
       = inr (MesonException
                "Xcode license not accepted yet. Run `sudo xcodebuild -license`.")
     ∧ errors_logged (init super version true check_output)
       = ["Failed to get Xcode SDK path: " +:+ out]
     ∧ contains out ("Failed to get Xcode SDK path: " +:+ out) = true)
  ∧ (check_output ["xcrun"; "--show-sdk-path"] = FileNotFoundError →
     constructed (init super version true check_output)
       = inr (MesonException
                "Could not detect Xcode. Please install it to compile Swift code.")
     ∧ errors_logged (init super version true check_output)
       = ["xcrun not found. Install Xcode to compile Swift code."]).
Proof.
  unfold init, xcrun_argv. split.
  - intros status out ->. cbn. repeat split.
    rewrite <- (append_empty_r out) at 2. apply contains_infix.
  - intros ->. by cbn.
Qed.

Lemma init_xcrun_failures_witness :
  xcrun_unlicensed ["xcrun"; "--show-sdk-path"]
    = CalledProcessError 69 "You have not agreed to the Xcode license agreements."
  ∧ xcrun_missing ["xcrun"; "--show-sdk-path"] = FileNotFoundError
  ∧ constructed (init native_c3c "0.6.8" true xcrun_unlicensed)
    = inr (MesonException
             "Xcode license not accepted yet. Run `sudo xcodebuild -license`.")
  ∧ constructed (init native_c3c "0.6.8" true xcrun_missing)
    = inr (MesonException
             "Could not detect Xcode. Please install it to compile Swift code.").
Proof.
  assert (H1 : xcrun_unlicensed ["xcrun"; "--show-sdk-path"]
               = CalledProcessError 69
                   "You have not agreed to the Xcode license agreements.")
    by reflexivity.
  assert (H2 : xcrun_missing ["xcrun"; "--show-sdk-path"] = FileNotFoundError)
    by reflexivity.
  split; [exact H1|]. split; [exact H2|]. split.
  - exact (proj1 (proj1 (init_xcrun_failures native_c3c "0.6.8" xcrun_unlicensed)
                    _ _ H1)).
  - exact (proj1 (proj2 (init_xcrun_failures native_c3c "0.6.8" xcrun_missing) H2)).
Defined.

(** ** Where the sanity check puts its files *)

Lemma join_under a name :
  PyStr.startswith "/" name = false → name ≠ "" →
  posixpath.join a [name]
  = a +:+ (if String.eqb a "" || PyStr.endswith_sep a then "" else "/") +:+ name.
Proof.
  intros Hrel Hne. cbn. unfold posixpath.join_step. rewrite Hrel. cbn [orb].
  destruct (String.eqb_spec a "") as [->|Ha]; [done|]. cbn [orb].
  by destruct (PyStr.endswith_sep a).
Qed.

Lemma append_eq_empty s t : s +:+ t = "" → t = "".
Proof. destruct s as [|c s]; [done|]. by rewrite append_cons. Qed.

(** X22: for every work directory, every path the check touches lies
    under it: the calls carried out are a beginning of the write of the
    work directory, a separator unless the directory is empty or ends with
    one, and 'c3ctest.c3'; the compile in the work directory with the same
    followed by 'c3test/c3test' after '-o'; the run of that path. *)
Theorem sanity_check_files_under_work_dir (self : compiler) (work_dir : string)
    (environment : Environment) (w : os_world) :
  ∃ mid front,
    (mid = "" ∨ mid = "/")
    ∧ (mid = "" ↔ work_dir = "" ∨ PyStr.endswith_sep work_dir = true)
    ∧ os_trace (probe_run w self work_dir environment)
        `prefix_of`
        [Wrote (work_dir +:+ mid +:+ "c3ctest.c3") C3Compiler.probe_source;
         Spawned (front ++ ["compile"; "c3ctest.c3"; "-o";
                            work_dir +:+ mid +:+ "c3test/c3test"])
                 work_dir;
         Executed (work_dir +:+ mid +:+ "c3test/c3test")].
Proof.
  exists (if String.eqb work_dir "" || PyStr.endswith_sep work_dir then "" else "/"),
    (exelist self
     ++ get_external_args environment
     ++ (if is_cross self then C3Compiler.get_compile_only_args
         else get_external_link_args environment)).
  assert (posixpath.join work_dir ["c3test"; "c3test"]
          = work_dir
            +:+ (if String.eqb work_dir "" || PyStr.endswith_sep work_dir
                 then "" else "/")
            +:+ "c3test/c3test") as Hout.
  { change (posixpath.join work_dir ["c3test"; "c3test"])
      with (posixpath.join (posixpath.join work_dir ["c3test"]) ["c3test"]).
    rewrite (join_under work_dir "c3test") by done.
    set (mid := if String.eqb work_dir "" || PyStr.endswith_sep work_dir
                then "" else "/").
    rewrite (join_under (work_dir +:+ mid +:+ "c3test") "c3test") by done.
    assert (work_dir +:+ mid +:+ "c3test" ≠ "") as Hne.
    { intros H. apply append_eq_empty, append_eq_empty in H. done. }
    assert (PyStr.endswith_sep (work_dir +:+ mid +:+ "c3test") = false) as Hend.
    { rewrite endswith_sep_append.
      - by rewrite endswith_sep_append.
      - intros H. by apply append_eq_empty in H. }
    apply String.eqb_neq in Hne. rewrite Hne, Hend. cbn [orb].
    by rewrite !append_assoc. }
  pose proof (probe_calls_prefix self work_dir environment w) as Hpre.
  unfold probe_calls, probe_argv in Hpre. rewrite Hout in Hpre.
  rewrite (join_under work_dir "c3ctest.c3") in Hpre by done.
  rewrite <- !app_assoc in Hpre.
  set (mid := if String.eqb work_dir "" || PyStr.endswith_sep work_dir
              then "" else "/") in *.
  assert (mid = "" ∨ mid = "/") as Hmid by (subst mid; destruct (_ || _); auto).
  assert (mid = "" ↔ work_dir = "" ∨ PyStr.endswith_sep work_dir = true) as Hiff.
  { subst mid. destruct (String.eqb_spec work_dir "") as [->|Hne]; cbn [orb].
    - split; auto.
    - destruct (PyStr.endswith_sep work_dir); split; try done; auto.
      intros [?|?]; done. }
  split; [exact Hmid|]. split; [exact Hiff|].
  rewrite <- !app_assoc. exact Hpre.
Qed.
